(** * Chart repair through the LLM back ends

    A model of [ReportEngine/utils/chart_repair_api.py]: the prompt builder
    [build_chart_repair_prompt], the four closures that
    [create_llm_repair_functions] hands out, and the table clean-up that
    [tests/test_report_engine_sanitization.py] exercises.

    Python values are a small inductive type, exceptions are data, and the
    effects of the module (reading the settings object, logging, calling the
    LLM client and the json module) are threaded through a state-and-exception
    monad over a [World]. *)

From Stdlib Require Import Floats.PrimFloat.
From stdpp Require Import base strings list gmap pretty.

Set Warnings "-inexact-float,-register-all".


(** ** Python values *)

(** Line feed and the double quote, built from their codes. *)
Definition nl : string := String (Ascii.ascii_of_nat 10) EmptyString.
Definition dq : string := String (Ascii.ascii_of_nat 34) EmptyString.

(** A triple-quoted literal whose every line ends in a line feed. *)
Definition py_lines (ls : list string) : string :=
  String.concat "" (map (fun l => l +:+ nl) ls).

(** The values that [json] reads and writes.  A [dict] keeps insertion order,
    so it is an association list; strings are their UTF-8 bytes; a float is a
    binary64, as in CPython. *)
Inductive pyval : Type :=
| PNone
| PBool (b : bool)
| PInt (z : Z)
| PFloat (f : float)
| PStr (s : string)
| PList (items : list pyval)
| PDict (entries : list (string * pyval)).

#[global] Instance pyval_inhabited : Inhabited pyval := populate PNone.

(** Truth value of a list: empty is false. *)
Definition list_truthy {A} (l : list A) : bool :=
  negb (Nat.eqb (length l) 0).

(** [bool(v)]: what [if not response] tests. *)
Definition py_truthy (v : pyval) : bool :=
  match v with
  | PNone => false
  | PBool b => b
  | PInt z => negb (z =? 0)%Z
  | PFloat f => negb (PrimFloat.eqb f 0%float)
  | PStr s => negb (String.eqb s "")
  | PList items => list_truthy items
  | PDict entries => list_truthy entries
  end.

Definition is_dict (v : pyval) : bool :=
  match v with PDict _ => true | _ => false end.

(** [type(v).__name__], as error messages show it. *)
Definition type_name (v : pyval) : string :=
  match v with
  | PNone => "NoneType"
  | PBool _ => "bool"
  | PInt _ => "int"
  | PFloat _ => "float"
  | PStr _ => "str"
  | PList _ => "list"
  | PDict _ => "dict"
  end.

(** A byte of the form 10xxxxxx, which continues a UTF-8 character. *)
Definition is_continuation (a : Ascii.ascii) : bool :=
  match a with
  | Ascii.Ascii _ _ _ _ _ _ b6 b7 => b7 && negb b6
  end.

(** The characters of a string, one string each, as iterating over a [str]
    yields them: a string being its UTF-8 bytes here, a character is a
    byte with the continuation bytes that follow it. *)
Fixpoint code_points (s : string) : list string :=
  match s with
  | EmptyString => []
  | String a s' =>
      match code_points s' with
      | String b c :: cs =>
          if is_continuation b
          then String a (String b c) :: cs
          else String a EmptyString :: String b c :: cs
      | cs => String a EmptyString :: cs
      end
  end.

(** ** Exceptions *)

(** The three built-in exceptions that derive from [BaseException] but not
    from [Exception], and everything that does derive from [Exception],
    by class name and [str(e)]. *)
Inductive exn : Type :=
| KeyboardInterrupt
| SystemExit
| GeneratorExit
| PyException (cls : string) (text : string).

(** [isinstance(e, Exception)]: what [except Exception] catches. *)
Definition isinstance_Exception (e : exn) : bool :=
  match e with
  | PyException _ _ => true
  | KeyboardInterrupt | SystemExit | GeneratorExit => false
  end.

(** [str(e)], as the f-string of the handler renders it. *)
Definition exn_str (e : exn) : string :=
  match e with
  | PyException _ text => text
  | KeyboardInterrupt | SystemExit | GeneratorExit => ""
  end.

(** How a call ends: with a value or with an exception in flight. *)
Inductive outcome (A : Type) : Type :=
| Return (a : A)
| Raise (e : exn).
Arguments Return {A} a.
Arguments Raise {A} e.

Definition is_Return {A} (o : outcome A) : bool :=
  match o with Return _ => true | Raise _ => false end.

(** ** The settings object *)

(** [ReportEngine.utils.config.settings]: one (key, base URL, model name)
    triple per engine, each attribute a string or [None]. *)
Record Settings : Type := mkSettings {
  REPORT_ENGINE_API_KEY : option string;
  REPORT_ENGINE_BASE_URL : option string;
  REPORT_ENGINE_MODEL_NAME : option string;
  FORUM_HOST_API_KEY : option string;
  FORUM_HOST_BASE_URL : option string;
  FORUM_HOST_MODEL_NAME : option string;
  INSIGHT_ENGINE_API_KEY : option string;
  INSIGHT_ENGINE_BASE_URL : option string;
  INSIGHT_ENGINE_MODEL_NAME : option string;
  MEDIA_ENGINE_API_KEY : option string;
  MEDIA_ENGINE_BASE_URL : option string;
  MEDIA_ENGINE_MODEL_NAME : option string
}.

(** Truth value of an attribute: [None] and the empty string are false. *)
Definition truthy (v : option string) : bool :=
  match v with
  | Some s => negb (String.eqb s "")
  | None => false
  end.

(** [v or d] for a string default [d]. *)
Definition py_or (v : option string) (d : string) : string :=
  match v with
  | Some s => if String.eqb s "" then d else s
  | None => d
  end.

(** ** The world the module runs in *)

Definition loc : Type := positive.

Inductive log_level : Type := WARNING | ERROR.

(** Calls that leave the module, in the order they are made. *)
Inductive call : Type :=
| Call_import_LLMClient
| Call_LLMClient (api_key base_url : option string) (model_name : string)
| Call_invoke (system_prompt user_prompt : string) (temperature top_p : float)
| Call_json_dumps (obj : pyval) (ensure_ascii : bool) (indent : option nat)
| Call_json_loads (s : pyval).

(** What the module does not define: the LLM client of [ReportEngine.llms],
    the [json] module and [str()] on values that are not strings.  The client
    is handed strings and floats only, so it cannot reach the caller's
    objects: it acts on a state of its own (the network, the import system).
    [json] and [str] are functions of their arguments.  Any of them may
    raise any exception. *)
Record Externals : Type := mkExternals {
  ext_state : Type;
  client : Type;
  ext_import : ext_state -> outcome unit * ext_state;
  ext_LLMClient :
    option string -> option string -> string ->
    ext_state -> outcome client * ext_state;
  ext_invoke :
    client -> string -> string -> float -> float ->
    ext_state -> outcome pyval * ext_state;
  ext_json_dumps : pyval -> bool -> option nat -> outcome string;
  ext_json_loads : pyval -> outcome pyval;
  ext_str : pyval -> string
}.

(** The module-level [settings], the objects the caller holds (by address),
    the log sink, the calls made so far and the state of the outside. *)
Record World (E : Type) : Type := mkWorld {
  settings : Settings;
  heap : gmap loc pyval;
  sink : list (log_level * string);
  calls : list call;
  outside : E
}.
Arguments mkWorld {E} _ _ _ _ _.
Arguments settings {E} _.
Arguments heap {E} _.
Arguments sink {E} _.
Arguments calls {E} _.
Arguments outside {E} _.

Definition log_to {E} (lvl : log_level) (msg : string) (w : World E) : World E :=
  mkWorld (settings w) (heap w) (sink w ++ [(lvl, msg)]) (calls w) (outside w).

Definition record_call {E} (c : call) (e : E) (w : World E) : World E :=
  mkWorld (settings w) (heap w) (sink w) (calls w ++ [c]) e.

(** ** Prompts *)

Definition CHART_REPAIR_SYSTEM_PROMPT : string :=
  py_lines [
    "你是一个专业的图表数据修复助手。你的任务是修复Chart.js图表数据中的格式错误，确保图表能够正常渲染。";
    "";
    "**Chart.js标准数据格式：**";
    "";
    "1. 标准图表（line, bar, pie, doughnut, radar, polarArea）：";
    "```json";
    "{";
    "  " +:+ dq +:+ "type" +:+ dq +:+ ": " +:+ dq +:+ "widget" +:+ dq +:+ ",";
    "  " +:+ dq +:+ "widgetType" +:+ dq +:+ ": " +:+ dq +:+ "chart.js/bar" +:+ dq +:+ ",";
    "  " +:+ dq +:+ "widgetId" +:+ dq +:+ ": " +:+ dq +:+ "chart-001" +:+ dq +:+ ",";
    "  " +:+ dq +:+ "props" +:+ dq +:+ ": {";
    "    " +:+ dq +:+ "type" +:+ dq +:+ ": " +:+ dq +:+ "bar" +:+ dq +:+ ",";
    "    " +:+ dq +:+ "title" +:+ dq +:+ ": " +:+ dq +:+ "图表标题" +:+ dq +:+ ",";
    "    " +:+ dq +:+ "options" +:+ dq +:+ ": {";
    "      " +:+ dq +:+ "responsive" +:+ dq +:+ ": true,";
    "      " +:+ dq +:+ "plugins" +:+ dq +:+ ": {";
    "        " +:+ dq +:+ "legend" +:+ dq +:+ ": {";
    "          " +:+ dq +:+ "display" +:+ dq +:+ ": true";
    "        }";
    "      }";
    "    }";
    "  },";
    "  " +:+ dq +:+ "data" +:+ dq +:+ ": {";
    "    " +:+ dq +:+ "labels" +:+ dq +:+ ": [" +:+ dq +:+ "A" +:+ dq +:+ ", " +:+ dq +:+ "B" +:+ dq +:+ ", " +:+ dq +:+ "C" +:+ dq +:+ "],";
    "    " +:+ dq +:+ "datasets" +:+ dq +:+ ": [";
    "      {";
    "        " +:+ dq +:+ "label" +:+ dq +:+ ": " +:+ dq +:+ "系列1" +:+ dq +:+ ",";
    "        " +:+ dq +:+ "data" +:+ dq +:+ ": [10, 20, 30]";
    "      }";
    "    ]";
    "  }";
    "}";
    "```";
    "";
    "2. 特殊图表（scatter, bubble）：";
    "```json";
    "{";
    "  " +:+ dq +:+ "data" +:+ dq +:+ ": {";
    "    " +:+ dq +:+ "datasets" +:+ dq +:+ ": [";
    "      {";
    "        " +:+ dq +:+ "label" +:+ dq +:+ ": " +:+ dq +:+ "系列1" +:+ dq +:+ ",";
    "        " +:+ dq +:+ "data" +:+ dq +:+ ": [";
    "          {" +:+ dq +:+ "x" +:+ dq +:+ ": 10, " +:+ dq +:+ "y" +:+ dq +:+ ": 20},";
    "          {" +:+ dq +:+ "x" +:+ dq +:+ ": 15, " +:+ dq +:+ "y" +:+ dq +:+ ": 25}";
    "        ]";
    "      }";
    "    ]";
    "  }";
    "}";
    "```";
    "";
    "**修复原则：**";
    "1. **宁愿不改，也不要改错** - 如果不确定如何修复，保持原始数据";
    "2. **最小改动** - 只修复明确的错误，不要过度修改";
    "3. **保持数据完整性** - 不要丢失原始数据";
    "4. **验证修复结果** - 确保修复后符合Chart.js格式";
    "";
    "**常见错误及修复方法：**";
    "1. 缺少labels字段 → 根据数据生成默认labels";
    "2. datasets不是数组 → 转换为数组格式";
    "3. 数据长度不匹配 → 截断或补null";
    "4. 非数值数据 → 尝试转换或设为null";
    "5. 缺少必需字段 → 添加默认值";
    "";
    "请根据错误信息修复图表数据，并返回修复后的完整widget block（JSON格式）。"
  ].

Definition PROMPT_HEAD : string :=
  py_lines [
    "请修复以下图表数据中的错误：";
    "";
    "**原始数据：**";
    "```json"
  ].

Definition PROMPT_MIDDLE : string :=
  nl +:+ py_lines [
    "```";
    "";
    "**检测到的错误：**"
  ].

Definition PROMPT_TAIL : string :=
  nl +:+ py_lines [
    "";
    "**要求：**";
    "1. 返回修复后的完整widget block（JSON格式）";
    "2. 只修复明确的错误，保持其他数据不变";
    "3. 确保修复后的数据符合Chart.js格式要求";
    "4. 如果无法确定如何修复，保持原始数据";
    "";
    "**重要的输出格式要求：**";
    "1. 只返回纯JSON对象，不要添加任何说明文字";
    "2. 不要使用```json```标记包裹";
    "3. 确保JSON语法完全正确";
    "4. 所有字符串使用双引号"
  ].

(** ** The monad of the module: state and exceptions *)

Definition M (E A : Type) : Type := World E -> outcome A * World E.

#[global] Instance M_ret {E} : MRet (M E) :=
  fun A a w => (Return a, w).

#[global] Instance M_bind {E} : MBind (M E) :=
  fun A B f m w =>
    match m w with
    | (Return a, w') => f a w'
    | (Raise e, w') => (Raise e, w')
    end.

Definition raise {E A} (e : exn) : M E A :=
  fun w => (Raise e, w).

(** [try: body / except Exception as e: handler e].  An exception that is
    not an instance of [Exception] passes through. *)
Definition try_except_Exception {E A}
    (body : M E A) (handler : exn -> M E A) : M E A :=
  fun w =>
    match body w with
    | (Return a, w') => (Return a, w')
    | (Raise e, w') =>
        if isinstance_Exception e then handler e w' else (Raise e, w')
    end.

(** A function object: its [__name__] and what calling it on two argument
    objects does. *)
Record pyfunc (E : Type) : Type := mkFunc {
  fn_name : string;
  fn_call : loc -> loc -> M E pyval
}.
Arguments mkFunc {E} _ _.
Arguments fn_name {E} _.
Arguments fn_call {E} _ _ _.

Section ChartRepair.

Context (X : Externals).

#[local] Abbreviation Mx := (M (ext_state X)).

(** *** Primitive steps *)

Definition read_settings : Mx Settings :=
  fun w => (Return (settings w), w).

(** The object an argument refers to.  A Python reference always refers to
    an object; an address that holds nothing reads as [None], which keeps
    [load] total. *)
Definition load (l : loc) : Mx pyval :=
  fun w => (Return (heap w !!! l), w).

Definition logger_error (msg : string) : Mx unit :=
  fun w => (Return tt, log_to ERROR msg w).

Definition logger_warning (msg : string) : Mx unit :=
  fun w => (Return tt, log_to WARNING msg w).

(** [from ReportEngine.llms import LLMClient] *)
Definition import_LLMClient : Mx unit :=
  fun w =>
    let '(r, e) := ext_import X (outside w) in
    (r, record_call Call_import_LLMClient e w).

Definition LLMClient (api_key base_url : option string) (model_name : string)
    : Mx (client X) :=
  fun w =>
    let '(r, e) := ext_LLMClient X api_key base_url model_name (outside w) in
    (r, record_call (Call_LLMClient api_key base_url model_name) e w).

Definition invoke (c : client X) (system_prompt user_prompt : string)
    (temperature top_p : float) : Mx pyval :=
  fun w =>
    let '(r, e) :=
      ext_invoke X c system_prompt user_prompt temperature top_p (outside w) in
    (r, record_call (Call_invoke system_prompt user_prompt temperature top_p) e w).

Definition json_dumps (obj : pyval) (ensure_ascii : bool) (indent : option nat)
    : Mx string :=
  fun w =>
    (ext_json_dumps X obj ensure_ascii indent,
     record_call (Call_json_dumps obj ensure_ascii indent) (outside w) w).

Definition json_loads (s : pyval) : Mx pyval :=
  fun w =>
    (ext_json_loads X s, record_call (Call_json_loads s) (outside w) w).

(** Iterating over the errors argument, as the generator expression does:
    a list yields its items, a dict its keys and a string its characters;
    [None], booleans and numbers are not iterable and raise [TypeError]. *)
Definition iter_list (v : pyval) : Mx (list pyval) :=
  match v with
  | PList items => mret items
  | PDict entries => mret (map (fun kv => PStr (fst kv)) entries)
  | PStr s => mret (map PStr (code_points s))
  | PNone | PBool _ | PInt _ | PFloat _ =>
      raise (PyException "TypeError"
               ("'" +:+ type_name v +:+ "' object is not iterable"))
  end.

(** What an f-string field renders: a string as itself, else [str()]. *)
Definition format_value (v : pyval) : string :=
  match v with
  | PStr s => s
  | _ => ext_str X v
  end.

(** *** [build_chart_repair_prompt] *)

Definition errors_text_of (validation_errors : list pyval) : string :=
  String.concat nl
    (map (fun error => "- " +:+ format_value error) validation_errors).

Definition build_chart_repair_prompt (widget_block validation_errors : loc)
    : Mx string :=
  obj ← load widget_block;
  block_json ← json_dumps obj false (Some 2);
  errs ← load validation_errors ≫= iter_list;
  let errors_text := errors_text_of errs in
  mret (PROMPT_HEAD +:+ block_json +:+ PROMPT_MIDDLE
        +:+ errors_text +:+ PROMPT_TAIL).

(** *** The four closures of [create_llm_repair_functions] *)

Definition repair_with_report_engine (widget_block errors : loc) : Mx pyval :=
  try_except_Exception
    (import_LLMClient;;
     s ← read_settings;
     client ← LLMClient (REPORT_ENGINE_API_KEY s) (REPORT_ENGINE_BASE_URL s)
                (py_or (REPORT_ENGINE_MODEL_NAME s) "gpt-4");
     prompt ← build_chart_repair_prompt widget_block errors;
     response ← invoke client CHART_REPAIR_SYSTEM_PROMPT prompt
                  0.0%float 0.05%float;
     if negb (py_truthy response) then mret PNone
     else
       repaired ← json_loads response;
       mret repaired)
    (fun e =>
       logger_error ("ReportEngine图表修复失败: " +:+ exn_str e);;
       mret PNone).

Definition repair_with_forum_engine (widget_block errors : loc) : Mx pyval :=
  try_except_Exception
    (import_LLMClient;;
     s ← read_settings;
     client ← LLMClient (FORUM_HOST_API_KEY s) (FORUM_HOST_BASE_URL s)
                (py_or (FORUM_HOST_MODEL_NAME s) "gpt-4");
     prompt ← build_chart_repair_prompt widget_block errors;
     response ← invoke client CHART_REPAIR_SYSTEM_PROMPT prompt
                  0.0%float 0.05%float;
     if negb (py_truthy response) then mret PNone
     else
       repaired ← json_loads response;
       mret repaired)
    (fun e =>
       logger_error ("ForumEngine图表修复失败: " +:+ exn_str e);;
       mret PNone).

Definition repair_with_insight_engine (widget_block errors : loc) : Mx pyval :=
  try_except_Exception
    (import_LLMClient;;
     s ← read_settings;
     client ← LLMClient (INSIGHT_ENGINE_API_KEY s) (INSIGHT_ENGINE_BASE_URL s)
                (py_or (INSIGHT_ENGINE_MODEL_NAME s) "gpt-4");
     prompt ← build_chart_repair_prompt widget_block errors;
     response ← invoke client CHART_REPAIR_SYSTEM_PROMPT prompt
                  0.0%float 0.05%float;
     if negb (py_truthy response) then mret PNone
     else
       repaired ← json_loads response;
       mret repaired)
    (fun e =>
       logger_error ("InsightEngine图表修复失败: " +:+ exn_str e);;
       mret PNone).

Definition repair_with_media_engine (widget_block errors : loc) : Mx pyval :=
  try_except_Exception
    (import_LLMClient;;
     s ← read_settings;
     client ← LLMClient (MEDIA_ENGINE_API_KEY s) (MEDIA_ENGINE_BASE_URL s)
                (py_or (MEDIA_ENGINE_MODEL_NAME s) "gpt-4");
     prompt ← build_chart_repair_prompt widget_block errors;
     response ← invoke client CHART_REPAIR_SYSTEM_PROMPT prompt
                  0.0%float 0.05%float;
     if negb (py_truthy response) then mret PNone
     else
       repaired ← json_loads response;
       mret repaired)
    (fun e =>
       logger_error ("MediaEngine图表修复失败: " +:+ exn_str e);;
       mret PNone).

(** *** [create_llm_repair_functions] *)

Definition create_llm_repair_functions : Mx (list (pyfunc (ext_state X))) :=
  let repair_functions := [] in
  s ← read_settings;
  let repair_functions :=
    if truthy (REPORT_ENGINE_API_KEY s) && truthy (REPORT_ENGINE_BASE_URL s)
    then (repair_functions
            ++ [mkFunc "repair_with_report_engine" repair_with_report_engine])
    else repair_functions in
  let repair_functions :=
    if truthy (FORUM_HOST_API_KEY s) && truthy (FORUM_HOST_BASE_URL s)
    then (repair_functions
            ++ [mkFunc "repair_with_forum_engine" repair_with_forum_engine])
    else repair_functions in
  let repair_functions :=
    if truthy (INSIGHT_ENGINE_API_KEY s) && truthy (INSIGHT_ENGINE_BASE_URL s)
    then (repair_functions
            ++ [mkFunc "repair_with_insight_engine" repair_with_insight_engine])
    else repair_functions in
  let repair_functions :=
    if truthy (MEDIA_ENGINE_API_KEY s) && truthy (MEDIA_ENGINE_BASE_URL s)
    then (repair_functions
            ++ [mkFunc "repair_with_media_engine" repair_with_media_engine])
    else repair_functions in
  (if negb (list_truthy repair_functions)
   then logger_warning "未配置任何Engine API，图表API修复功能将不可用"
   else mret tt);;
  mret repair_functions.

End ChartRepair.

(** ** The four engines as a family *)

Inductive Engine : Type :=
| ReportEngine
| ForumEngine
| InsightEngine
| MediaEngine.

Definition all_engines : list Engine :=
  [ReportEngine; ForumEngine; InsightEngine; MediaEngine].

(** The configuration triple an engine's closure reads. *)
Definition api_key_of (eng : Engine) (s : Settings) : option string :=
  match eng with
  | ReportEngine => REPORT_ENGINE_API_KEY s
  | ForumEngine => FORUM_HOST_API_KEY s
  | InsightEngine => INSIGHT_ENGINE_API_KEY s
  | MediaEngine => MEDIA_ENGINE_API_KEY s
  end.

Definition base_url_of (eng : Engine) (s : Settings) : option string :=
  match eng with
  | ReportEngine => REPORT_ENGINE_BASE_URL s
  | ForumEngine => FORUM_HOST_BASE_URL s
  | InsightEngine => INSIGHT_ENGINE_BASE_URL s
  | MediaEngine => MEDIA_ENGINE_BASE_URL s
  end.

Definition model_name_of (eng : Engine) (s : Settings) : option string :=
  match eng with
  | ReportEngine => REPORT_ENGINE_MODEL_NAME s
  | ForumEngine => FORUM_HOST_MODEL_NAME s
  | InsightEngine => INSIGHT_ENGINE_MODEL_NAME s
  | MediaEngine => MEDIA_ENGINE_MODEL_NAME s
  end.

(** The guard of the engine's [if] in [create_llm_repair_functions]. *)
Definition configured (s : Settings) (eng : Engine) : bool :=
  truthy (api_key_of eng s) && truthy (base_url_of eng s).

(** The text the engine's handler puts before [str(e)]. *)
Definition failure_label (eng : Engine) : string :=
  match eng with
  | ReportEngine => "ReportEngine图表修复失败: "
  | ForumEngine => "ForumEngine图表修复失败: "
  | InsightEngine => "InsightEngine图表修复失败: "
  | MediaEngine => "MediaEngine图表修复失败: "
  end.

Definition function_name (eng : Engine) : string :=
  match eng with
  | ReportEngine => "repair_with_report_engine"
  | ForumEngine => "repair_with_forum_engine"
  | InsightEngine => "repair_with_insight_engine"
  | MediaEngine => "repair_with_media_engine"
  end.

Definition repair_of (X : Externals) (eng : Engine)
    : loc -> loc -> M (ext_state X) pyval :=
  match eng with
  | ReportEngine => repair_with_report_engine X
  | ForumEngine => repair_with_forum_engine X
  | InsightEngine => repair_with_insight_engine X
  | MediaEngine => repair_with_media_engine X
  end.

Definition function_of (X : Externals) (eng : Engine) : pyfunc (ext_state X) :=
  mkFunc (function_name eng) (repair_of X eng).

(** ** The three steps, as the specification words them

    Render the prompt and invoke the remote model; parse the reply as JSON;
    turn any [Exception] into [None].  These definitions follow the
    specification, not the source; the theorems below compare the two. *)

Definition render_and_invoke (X : Externals) (eng : Engine)
    (widget_block errors : loc) : M (ext_state X) pyval :=
  import_LLMClient X;;
  s ← read_settings X;
  c ← LLMClient X (api_key_of eng s) (base_url_of eng s)
        (py_or (model_name_of eng s) "gpt-4");
  prompt ← build_chart_repair_prompt X widget_block errors;
  invoke X c CHART_REPAIR_SYSTEM_PROMPT prompt 0.0%float 0.05%float.

Definition parse_reply (X : Externals) (response : pyval)
    : M (ext_state X) pyval :=
  if py_truthy response then json_loads X response else mret PNone.

Definition attempt (X : Externals) (eng : Engine) (widget_block errors : loc)
    : M (ext_state X) pyval :=
  render_and_invoke X eng widget_block errors ≫= parse_reply X.

Definition three_step_repair (X : Externals) (eng : Engine)
    (widget_block errors : loc) : M (ext_state X) pyval :=
  fun w =>
    match attempt X eng widget_block errors w with
    | (Return v, w') => (Return v, w')
    | (Raise e, w') =>
        if isinstance_Exception e
        then (Return PNone, log_to ERROR (failure_label eng +:+ exn_str e) w')
        else (Raise e, w')
    end.

(** The calls a run adds to the record. *)
Definition new_calls {E} (before after : World E) : list call :=
  drop (length (calls before)) (calls after).

(** ** Notions the theorems use *)

(** A computation that writes neither the caller's objects nor the
    settings. *)
Definition keeps_store {E A} (m : M E A) : Prop :=
  forall w, heap (snd (m w)) = heap w /\ settings (snd (m w)) = settings w.


(** The calls of a full run, in order. *)
Definition steps_of (eng : Engine) (s : Settings) (obj : pyval)
    (prompt : string) (response : pyval) : list call :=
  [Call_import_LLMClient;
   Call_LLMClient (api_key_of eng s) (base_url_of eng s)
     (py_or (model_name_of eng s) "gpt-4");
   Call_json_dumps obj false (Some 2);
   Call_invoke CHART_REPAIR_SYSTEM_PROMPT prompt 0.0%float 0.05%float;
   Call_json_loads response].


(** ** A scripted outside, for running the model on concrete inputs *)

(** A small encoder in the layout of [json.dumps(..., indent=2)]: strings
    are quoted as they are, and a float, which it does not render, shows as
    a placeholder. *)
Definition spaces (n : nat) : string :=
  String.concat "" (replicate n " ").

Fixpoint encode (level : nat) (v : pyval) : string :=
  match v with
  | PNone => "null"
  | PBool true => "true"
  | PBool false => "false"
  | PInt z => pretty z
  | PFloat _ => "<float>"
  | PStr s => dq +:+ s +:+ dq
  | PList [] => "[]"
  | PList items =>
      "[" +:+ nl
      +:+ String.concat ("," +:+ nl)
            (map (fun x => spaces (2 * S level) +:+ encode (S level) x) items)
      +:+ nl +:+ spaces (2 * level) +:+ "]"
  | PDict [] => "{}"
  | PDict entries =>
      "{" +:+ nl
      +:+ String.concat ("," +:+ nl)
            (map (fun kv => spaces (2 * S level) +:+ dq +:+ fst kv +:+ dq
                            +:+ ": " +:+ encode (S level) (snd kv)) entries)
      +:+ nl +:+ spaces (2 * level) +:+ "}"
  end.

(** What the outside does in one scenario. *)
Record Script : Type := mkScript {
  on_import : outcome unit;
  on_LLMClient : outcome unit;
  on_invoke : outcome pyval;
  on_dumps : outcome unit;
  parse_table : list (string * pyval)
}.

Fixpoint table_lookup (k : string) (t : list (string * pyval)) : option pyval :=
  match t with
  | [] => None
  | (k', v) :: t' => if String.eqb k k' then Some v else table_lookup k t'
  end.

Definition scripted_loads (t : list (string * pyval)) (s : pyval)
    : outcome pyval :=
  match s with
  | PStr text =>
      match table_lookup text t with
      | Some v => Return v
      | None => Raise (PyException "JSONDecodeError" "Expecting value")
      end
  | _ => Raise (PyException "TypeError" "the JSON object must be str")
  end.

(** The outside state counts the requests sent to the model. *)
Definition scripted (sc : Script) : Externals :=
  {| ext_state := nat;
     client := option string * option string * string;
     ext_import := fun n => (on_import sc, n);
     ext_LLMClient := fun k u m n =>
       (match on_LLMClient sc with
        | Return _ => Return (k, u, m)
        | Raise e => Raise e
        end, n);
     ext_invoke := fun _ _ _ _ _ n => (on_invoke sc, S n);
     ext_json_dumps := fun v _ _ =>
       match on_dumps sc with
       | Return _ => Return (encode 0 v)
       | Raise e => Raise e
       end;
     ext_json_loads := scripted_loads (parse_table sc);
     ext_str := fun _ => "<object>" |}.

(** *** Sample inputs *)

(** Report and Media engines configured, the Forum key empty, Insight unset. *)
Definition sample_settings : Settings :=
  {| REPORT_ENGINE_API_KEY := Some "sk-report";
     REPORT_ENGINE_BASE_URL := Some "https://report.example/v1";
     REPORT_ENGINE_MODEL_NAME := None;
     FORUM_HOST_API_KEY := Some "";
     FORUM_HOST_BASE_URL := Some "https://forum.example/v1";
     FORUM_HOST_MODEL_NAME := Some "forum-model";
     INSIGHT_ENGINE_API_KEY := None;
     INSIGHT_ENGINE_BASE_URL := None;
     INSIGHT_ENGINE_MODEL_NAME := None;
     MEDIA_ENGINE_API_KEY := Some "sk-media";
     MEDIA_ENGINE_BASE_URL := Some "https://media.example/v1";
     MEDIA_ENGINE_MODEL_NAME := Some "media-model" |}.

Definition unconfigured_settings : Settings :=
  mkSettings None None None None None None None None None None None None.

(** A bar chart whose one dataset is shorter than its labels. *)
Definition sample_widget : pyval :=
  PDict [
    ("type", PStr "widget");
    ("widgetType", PStr "chart.js/bar");
    ("data", PDict [
       ("labels", PList [PStr "甲"; PStr "乙"]);
       ("datasets", PList [
          PDict [("label", PStr "系列1"); ("data", PList [PInt 10])]])])
  ].

Definition sample_errors : list string :=
  ["labels has 2 entries, datasets[0].data has 1";
   "datasets[0].data 长度不匹配"].

Definition widget_loc : loc := 1%positive.
Definition errors_loc : loc := 2%positive.

Definition sample_heap : gmap loc pyval :=
  <[widget_loc := sample_widget]>
    (<[errors_loc := PList (map PStr sample_errors)]> ∅).

Definition sample_world : World nat :=
  mkWorld sample_settings sample_heap [] [] 0.

(** Replies of the model used below, with what [json.loads] makes of them. *)
Definition reply_list : string := "[1, 2]".
Definition reply_bad_chart : string := "{labels: 2, data: 1}".

Definition bad_chart : pyval :=
  PDict [("data", PDict [("labels", PList [PStr "甲"; PStr "乙"]);
                         ("datasets", PStr "none")])].

Definition sample_table : list (string * pyval) :=
  [(reply_list, PList [PInt 1; PInt 2]);
   (reply_bad_chart, bad_chart);
   ("null", PNone)].

Definition script_reply (r : outcome pyval) : Script :=
  mkScript (Return tt) (Return tt) r (Return tt) sample_table.

(** *** Scenarios *)

(** The model answers with a text that is not JSON. *)
Definition outside_unparsable : Externals :=
  scripted (script_reply (Return (PStr "I cannot repair this chart."))).

(** The user interrupts the request to the model. *)
Definition outside_interrupted : Externals :=
  scripted (script_reply (Raise KeyboardInterrupt)).

(** Creating the client ends the interpreter. *)
Definition outside_exiting : Externals :=
  scripted (mkScript (Return tt) (Raise SystemExit) (Return PNone)
              (Return tt) sample_table).

(** The model answers with a chart whose datasets are not an array. *)
Definition outside_bad_chart : Externals :=
  scripted (script_reply (Return (PStr reply_bad_chart))).

(** The model answers with a JSON list, and with nothing. *)
Definition outside_list : Externals :=
  scripted (script_reply (Return (PStr reply_list))).

Definition outside_silent : Externals :=
  scripted (script_reply (Return (PStr ""))).



(** The widget block holds something [json.dumps] cannot serialize. *)
Definition outside_unserializable : Externals :=
  scripted (mkScript (Return tt) (Return tt) (Return PNone)
              (Raise (PyException "TypeError"
                        "Object of type datetime is not JSON serializable"))
              sample_table).

(** [ReportEngine.llms] cannot be imported. *)
Definition outside_no_llms : Externals :=
  scripted (mkScript
              (Raise (PyException "ImportError" "No module named openai"))
              (Return tt) (Return PNone) (Return tt) sample_table).

(** One validation error whose text holds a line feed. *)
Definition two_line_error : string := "first" +:+ nl +:+ "second".

Definition two_line_world : World nat :=
  mkWorld sample_settings
    (<[widget_loc := sample_widget]>
       (<[errors_loc := PList [PStr two_line_error]]> ∅))
    [] [] 0.

(** The settings were cleared after the closures were created. *)
Definition cleared_world : World nat :=
  mkWorld unconfigured_settings sample_heap [] [] 0.

(** ** Chapter sanitization

    [ChapterGenerationNode._sanitize_chapter_blocks] is called by
    [tests/test_report_engine_sanitization.py]; its body is not part of the
    sources at hand. *)

(** Reading a dict entry and a list item; anything else has none. *)
Fixpoint dict_get (k : string) (d : list (string * pyval)) : option pyval :=
  match d with
  | [] => None
  | (k', v) :: d' => if String.eqb k' k then Some v else dict_get k d'
  end.

(** [d[k] = v]: an entry that is there keeps its place; a new one goes last. *)
Fixpoint dict_set (k : string) (v : pyval) (d : list (string * pyval))
    : list (string * pyval) :=
  match d with
  | [] => [(k, v)]
  | (k', v') :: d' =>
      if String.eqb k' k then (k', v) :: d' else (k', v') :: dict_set k v d'
  end.

(** Rewriting the entries under one key where they stand. *)
Definition map_entry (k : string) (f : pyval -> pyval)
    (d : list (string * pyval)) : list (string * pyval) :=
  map (fun kv => if String.eqb (fst kv) k then (fst kv, f (snd kv)) else kv) d.

Definition get (k : string) (v : pyval) : option pyval :=
  match v with
  | PDict d => dict_get k d
  | _ => None
  end.

Definition item (i : nat) (v : pyval) : option pyval :=
  match v with
  | PList l => l !! i
  | _ => None
  end.

Definition is_table (b : pyval) : bool :=
  match get "type" b with
  | Some (PStr t) => String.eqb t "table"
  | _ => false
  end.

(** Modelled from the spec: the rows it calls scalar, a bare string above
    all; numbers and booleans are taken with them. *)
Definition is_scalar (v : pyval) : bool :=
  match v with
  | PBool _ | PInt _ | PFloat _ | PStr _ => true
  | PNone | PList _ | PDict _ => false
  end.

(** Modelled from the spec: the paragraph block the sanitizer puts in, which
    the sources at hand do not define.  The test reads its type and the text
    of its first inline. *)
Definition paragraph (text : pyval) : pyval :=
  PDict [("type", PStr "paragraph");
         ("inlines", PList [PDict [("text", text)]])].

(** Modelled from the spec: the single-cell row a scalar row is expanded
    into, its paragraph text the scalar itself. *)
Definition single_cell_row (scalar : pyval) : pyval :=
  PDict [("cells", PList [PDict [("blocks", PList [paragraph scalar])]])].

(** Modelled from the spec: a cell object whose block list is empty,
    [None] or absent. *)
Definition blocks_missing (cell : pyval) : bool :=
  match cell with
  | PDict d =>
      match dict_get "blocks" d with
      | None | Some PNone | Some (PList []) => true
      | Some _ => false
      end
  | _ => false
  end.

(** What a value is, on the way down from a chapter to its table cells. *)
Inductive node_kind : Type := Blocks | Block | Rows | Row | Cells | Cell.

Section Sanitization.

(** The specification does not say what text the paragraph of an empty cell
    carries; it is a function of the cell, left open. *)
Context (fallback_text : pyval -> pyval).

(** Modelled from the spec: the body of [_sanitize_chapter_blocks], which
    the sources at hand do not include.  Section 8 of the specification
    gives its two rules: an empty or absent table-cell block list is replaced
    with a single paragraph block, and a scalar table row is expanded into a
    single-cell row whose paragraph text equals the scalar.  The walk goes
    through the blocks of the chapter, the rows of every table block, the
    cells of every row and the blocks of every cell; everything the two
    rules do not name stays as it is. *)
Fixpoint sanitize (kind : node_kind) (v : pyval) {struct v} : pyval :=
  match kind, v with
  | Blocks, PList blocks => PList (map (sanitize Block) blocks)
  | Block, PDict d =>
      if is_table v
      then PDict (map_entry "rows" (sanitize Rows) d)
      else v
  | Rows, PList rows => PList (map (sanitize Row) rows)
  | Row, PDict d =>
      PDict (map_entry "cells" (sanitize Cells) d)
  | Row, (PBool _ | PInt _ | PFloat _ | PStr _) => single_cell_row v
  | Cells, PList cells => PList (map (sanitize Cell) cells)
  | Cell, PDict d =>
      if blocks_missing v
      then PDict (dict_set "blocks" (PList [paragraph (fallback_text v)]) d)
      else PDict (map_entry "blocks" (sanitize Blocks) d)
  | _, _ => v
  end.

(** Modelled from the spec: the chapter is a dict whose blocks are
    sanitized. *)
Definition sanitize_chapter (chapter : pyval) : pyval :=
  match chapter with
  | PDict d =>
      PDict (map_entry "blocks" (sanitize Blocks) d)
  | _ => chapter
  end.

(** Modelled from the spec: [_sanitize_chapter_blocks(chapter)] returns
    nothing and the test reads the chapter it passed, so the call rewrites
    the chapter object in place. *)
Definition _sanitize_chapter_blocks (chapter : loc) (h : gmap loc pyval)
    : gmap loc pyval :=
  alter sanitize_chapter chapter h.

End Sanitization.

(** The cell at row [j], column [c] of the table that is block [i] of a
    block list. *)
Definition row_in_blocks (blocks : pyval) (i j : nat) : option pyval :=
  b ← item i blocks;
  if is_table b then rows ← get "rows" b; item j rows else None.

Definition cell_in_blocks (blocks : pyval) (i j c : nat) : option pyval :=
  row ← row_in_blocks blocks i j;
  cells ← get "cells" row;
  item c cells.

(** A table cell of a chapter, by the way to it: block, row and column in
    the chapter's blocks, then, for a table inside a cell, block, row and
    column in that cell's blocks, and so on.  The empty way is the holder
    itself. *)
Fixpoint table_cell (way : list (nat * nat * nat)) (holder : pyval)
    : option pyval :=
  match way with
  | [] => Some holder
  | (i, j, c) :: rest =>
      blocks ← get "blocks" holder;
      cell ← cell_in_blocks blocks i j c;
      table_cell rest cell
  end.

(** The text of the paragraph's first inline. *)
Definition paragraph_text (block : pyval) : option pyval :=
  inlines ← get "inlines" block;
  inline ← item 0 inlines;
  get "text" inline.

(** Indexing into a value, step by step, as the tests do. *)
Inductive step : Type :=
| Key (k : string)
| Index (i : nat).

Fixpoint at_path (p : list step) (v : pyval) : option pyval :=
  match p with
  | [] => Some v
  | Key k :: p' => x ← get k v; at_path p' x
  | Index i :: p' => x ← item i v; at_path p' x
  end.

(** [len] of a list that is there. *)
Definition py_len (v : option pyval) : option nat :=
  match v with
  | Some (PList l) => Some (length l)
  | _ => None
  end.

(** The text an empty cell gets in the examples: its own, if it has one. *)
Definition own_text (cell : pyval) : pyval :=
  default (PStr "") (get "text" cell).

(** The chapters of the two tests. *)
Definition chapter_loc : loc := 3%positive.

Definition chapter_empty_cells : pyval :=
  PDict [("blocks", PList [
    PDict [("type", PStr "table");
           ("rows", PList [
              PDict [("cells", PList [
                 PDict [("blocks", PList [])];
                 PDict [("text", PStr "同比变化"); ("blocks", PNone)]])]])]])].

Definition chapter_scalar_rows : pyval :=
  PDict [("blocks", PList [
    PDict [("type", PStr "table"); ("rows", PList [PStr "全国趋势"])]])].

(** ** Reading the record of calls and the lines of a text *)

Definition is_invoke (c : call) : bool :=
  match c with Call_invoke _ _ _ _ => true | _ => false end.

Definition is_LLMClient (c : call) : bool :=
  match c with Call_LLMClient _ _ _ => true | _ => false end.

Definition is_json_loads (c : call) : bool :=
  match c with Call_json_loads _ => true | _ => false end.

(** The number of line feeds in a text. *)
Fixpoint count_nl (s : string) : nat :=
  match s with
  | EmptyString => 0
  | String a s' =>
      (if Ascii.eqb a (Ascii.ascii_of_nat 10) then 1 else 0) + count_nl s'
  end.

(** The lines of a text, as [str.split] at line feeds gives them. *)
Fixpoint lines_of (s : string) : list string :=
  match s with
  | EmptyString => [EmptyString]
  | String a s' =>
      if Ascii.eqb a (Ascii.ascii_of_nat 10)
      then EmptyString :: lines_of s'
      else match lines_of s' with
           | l :: ls => String a l :: ls
           | [] => [String a EmptyString]
           end
  end.

(** The text [create_llm_repair_functions] warns with. *)
Definition NO_ENGINE_WARNING : string :=
  "未配置任何Engine API，图表API修复功能将不可用".

(** * Properties of the chart repair module *)

Section Properties.

Context (X : Externals).

#[local] Abbreviation Mx := (M (ext_state X)).

(** ** Running the monad *)

Lemma bind_run {A B} (m : Mx A) (f : A -> Mx B) w :
  (m ≫= f) w =
  match m w with
  | (Return a, w') => f a w'
  | (Raise e, w') => (Raise e, w')
  end.
Proof. reflexivity. Qed.

(** Case analysis on the next call that leaves the module. *)
Ltac destruct_op :=
  match goal with
  | |- context [import_LLMClient X ?w] =>
      destruct (import_LLMClient X w) as [[[]|?] ?]
  | |- context [LLMClient X ?a ?b ?c ?w] =>
      destruct (LLMClient X a b c w) as [[?|?] ?]
  | |- context [build_chart_repair_prompt X ?a ?b ?w] =>
      destruct (build_chart_repair_prompt X a b w) as [[?|?] ?]
  | |- context [invoke X ?c ?s ?p ?t ?tp ?w] =>
      destruct (invoke X c s p t tp w) as [[?|?] ?]
  | |- context [json_loads X ?r ?w] =>
      destruct (json_loads X r w) as [[?|?] ?]
  | |- context [py_truthy ?r] => destruct (py_truthy r)
  end;
  cbv beta iota delta [negb].

(** Each closure of the source is the three-step pipeline of its engine. *)
Lemma repair_of_three_step eng wb errs w :
  repair_of X eng wb errs w = three_step_repair X eng wb errs w.
Proof.
  destruct eng;
    cbv [repair_of repair_with_report_engine repair_with_forum_engine
         repair_with_insight_engine repair_with_media_engine
         three_step_repair attempt render_and_invoke try_except_Exception
         parse_reply api_key_of base_url_of model_name_of failure_label
         mbind M_bind mret M_ret read_settings logger_error].
  all: repeat (destruct_op; try reflexivity).
Qed.

(** ** What a run leaves alone *)

Lemma keeps_ret {A} (a : A) : keeps_store (mret a : Mx A).
Proof. intros w. split; reflexivity. Qed.

Lemma keeps_raise {A} e : keeps_store (raise e : Mx A).
Proof. intros w. split; reflexivity. Qed.

Lemma keeps_bind {A B} (m : Mx A) (f : A -> Mx B) :
  keeps_store m -> (forall a, keeps_store (f a)) -> keeps_store (m ≫= f).
Proof.
  intros Hm Hf w. rewrite bind_run.
  specialize (Hm w). destruct (m w) as [[a|e] w1]; simpl in Hm.
  - destruct (Hf a w1) as [-> ->]. exact Hm.
  - exact Hm.
Qed.

Lemma keeps_try {A} (body : Mx A) (handler : exn -> Mx A) :
  keeps_store body -> (forall e, keeps_store (handler e)) ->
  keeps_store (try_except_Exception body handler).
Proof.
  intros Hb Hh w. unfold try_except_Exception.
  specialize (Hb w). destruct (body w) as [[a|e] w1]; simpl in Hb.
  - exact Hb.
  - destruct (isinstance_Exception e); [|exact Hb].
    destruct (Hh e w1) as [-> ->]. exact Hb.
Qed.

Lemma keeps_read_settings : keeps_store (read_settings X).
Proof. intros w. split; reflexivity. Qed.

Lemma keeps_load l : keeps_store (load X l).
Proof. intros w. split; reflexivity. Qed.

Lemma keeps_logger_error msg : keeps_store (logger_error X msg).
Proof. intros w. split; reflexivity. Qed.

Lemma keeps_logger_warning msg : keeps_store (logger_warning X msg).
Proof. intros w. split; reflexivity. Qed.

Lemma keeps_import : keeps_store (import_LLMClient X).
Proof.
  intros w. unfold import_LLMClient.
  destruct (ext_import X (outside w)). split; reflexivity.
Qed.

Lemma keeps_LLMClient k u m : keeps_store (LLMClient X k u m).
Proof.
  intros w. unfold LLMClient.
  destruct (ext_LLMClient X k u m (outside w)). split; reflexivity.
Qed.

Lemma keeps_invoke c s p t tp : keeps_store (invoke X c s p t tp).
Proof.
  intros w. unfold invoke.
  destruct (ext_invoke X c s p t tp (outside w)). split; reflexivity.
Qed.

Lemma keeps_json_dumps v a i : keeps_store (json_dumps X v a i).
Proof. intros w. split; reflexivity. Qed.

Lemma keeps_json_loads s : keeps_store (json_loads X s).
Proof. intros w. split; reflexivity. Qed.

Lemma keeps_iter_list v : keeps_store (iter_list X v).
Proof. destruct v; first [apply keeps_ret | apply keeps_raise]. Qed.

Create HintDb frame.
#[local] Hint Resolve keeps_ret keeps_raise keeps_bind keeps_try
  keeps_read_settings keeps_load keeps_logger_error keeps_logger_warning
  keeps_import keeps_LLMClient keeps_invoke keeps_json_dumps keeps_json_loads
  keeps_iter_list : frame.

Lemma keeps_build_prompt wb errs :
  keeps_store (build_chart_repair_prompt X wb errs).
Proof. unfold build_chart_repair_prompt. auto 10 with frame. Qed.

#[local] Hint Resolve keeps_build_prompt : frame.

Lemma keeps_repair eng wb errs : keeps_store (repair_of X eng wb errs).
Proof.
  destruct eng; cbv [repair_of repair_with_report_engine
    repair_with_forum_engine repair_with_insight_engine
    repair_with_media_engine].
  all: apply keeps_try; [|auto with frame].
  all: repeat (apply keeps_bind; [auto with frame | intros ?]).
  all: destruct (negb _); auto 6 with frame.
Qed.

(** ** What [create_llm_repair_functions] returns *)

Lemma create_spec w :
  exists w',
    create_llm_repair_functions X w =
    (Return (map (function_of X)
               (List.filter (configured (settings w)) all_engines)), w').
Proof.
  cbv [create_llm_repair_functions read_settings all_engines List.filter
       configured api_key_of base_url_of model_name_of].
  rewrite bind_run.
  destruct (truthy (REPORT_ENGINE_API_KEY (settings w))
            && truthy (REPORT_ENGINE_BASE_URL (settings w)));
  destruct (truthy (FORUM_HOST_API_KEY (settings w))
            && truthy (FORUM_HOST_BASE_URL (settings w)));
  destruct (truthy (INSIGHT_ENGINE_API_KEY (settings w))
            && truthy (INSIGHT_ENGINE_BASE_URL (settings w)));
  destruct (truthy (MEDIA_ENGINE_API_KEY (settings w))
            && truthy (MEDIA_ENGINE_BASE_URL (settings w)));
  eexists; reflexivity.
Qed.

Lemma function_name_inj e1 e2 : function_name e1 = function_name e2 -> e1 = e2.
Proof. destruct e1, e2; simpl; intros H; first [reflexivity | discriminate H]. Qed.

Lemma function_of_inj e1 e2 : function_of X e1 = function_of X e2 -> e1 = e2.
Proof.
  intros H. apply function_name_inj.
  exact (f_equal fn_name H).
Qed.

Lemma in_all_engines eng : In eng all_engines.
Proof. destruct eng; simpl; auto 6. Qed.

(** ** The calls a run makes *)

Lemma new_calls_app {E} (w w' : World E) l :
  calls w' = calls w ++ l -> new_calls w w' = l.
Proof. intros H. unfold new_calls. rewrite H. apply drop_app_length. Qed.

(** Unfold a run down to the calls it makes to the outside, and split on
    what each of them answers. *)
Ltac unfold_run :=
  cbv [three_step_repair attempt render_and_invoke parse_reply
       build_chart_repair_prompt mbind M_bind mret M_ret read_settings
       import_LLMClient LLMClient invoke json_dumps json_loads load
       iter_list raise].

Ltac destruct_ext :=
  match goal with
  | |- context [ext_import X ?e] =>
      destruct (ext_import X e) as [[[]|?] ?] eqn:?
  | |- context [ext_LLMClient X ?a ?b ?c ?e] =>
      destruct (ext_LLMClient X a b c e) as [[?|?] ?] eqn:?
  | |- context [ext_json_dumps X ?v ?a ?i] =>
      destruct (ext_json_dumps X v a i) as [?|?] eqn:?
  | |- context [match heap ?w !!! ?l with _ => _ end] =>
      destruct (heap w !!! l) eqn:?
  | |- context [ext_invoke X ?c ?s ?p ?t ?tp ?e] =>
      destruct (ext_invoke X c s p t tp e) as [[?|?] ?] eqn:?
  | |- context [py_truthy ?r] => destruct (py_truthy r) eqn:?
  | |- context [ext_json_loads X ?r] =>
      destruct (ext_json_loads X r) as [?|?] eqn:?
  | |- context [isinstance_Exception ?e] =>
      destruct (isinstance_Exception e) eqn:?
  end;
  cbn [record_call log_to settings heap sink calls outside fst snd].

Lemma render_and_invoke_calls eng wb errs w :
  exists prompt response,
    new_calls w (snd (render_and_invoke X eng wb errs w))
    `prefix_of` steps_of eng (settings w) (heap w !!! wb) prompt response.
Proof.
  unfold_run.
  repeat destruct_ext.
  all: eexists _, PNone; erewrite new_calls_app;
    [|cbn [record_call calls snd]; rewrite <- ?app_assoc; reflexivity].
  all: unfold steps_of; cbn [app].
  all: repeat (first [apply prefix_cons | apply prefix_nil]).
  Unshelve. all: exact "".
Qed.

Lemma attempt_calls eng wb errs w :
  exists prompt response,
    new_calls w (snd (attempt X eng wb errs w))
    `prefix_of` steps_of eng (settings w) (heap w !!! wb) prompt response.
Proof.
  unfold_run.
  repeat destruct_ext.
  all: eexists _, _; erewrite new_calls_app;
    [|cbn [record_call calls snd]; rewrite <- ?app_assoc; reflexivity].
  all: unfold steps_of; cbn [app].
  all: repeat (first [apply prefix_cons | apply prefix_nil]).
  Unshelve. all: first [exact "" | exact PNone].
Qed.

Lemma render_makes_no_parse eng wb errs w s :
  ~ In (Call_json_loads s)
       (new_calls w (snd (render_and_invoke X eng wb errs w))).
Proof.
  unfold_run.
  repeat destruct_ext.
  all: erewrite new_calls_app;
    [|cbn [record_call calls snd]; rewrite <- ?app_assoc; reflexivity].
  all: cbn [In app]; intros H; repeat destruct H as [H|H]; try discriminate H;
    exact H.
Qed.


Lemma three_step_calls eng wb errs w :
  calls (snd (three_step_repair X eng wb errs w))
  = calls (snd (attempt X eng wb errs w)) /\
  outside (snd (three_step_repair X eng wb errs w))
  = outside (snd (attempt X eng wb errs w)).
Proof.
  unfold three_step_repair.
  destruct (attempt X eng wb errs w) as [[v|e] w1]; [split; reflexivity|].
  destruct (isinstance_Exception e); split; reflexivity.
Qed.

(** ** C1 *)

(** C1, as amended: an exception raised during the attempt (import, client
    creation, prompt construction, model invocation or parsing of the reply)
    that is an instance of [Exception] is caught: the closure logs it, the
    engine's label followed by [str(e)], and returns [None].  An exception
    that is not an instance of [Exception] (KeyboardInterrupt, SystemExit,
    GeneratorExit) is not caught: it reaches the caller as it was raised and
    nothing is logged.  So whatever a closure lets through was raised by the
    attempt and is outside [Exception].  ([str(e)] is part of the exception
    here, so rendering the log message does not raise.) *)
Theorem repair_catches_Exception eng wb errs w :
  (forall e w',
     attempt X eng wb errs w = (Raise e, w') ->
     isinstance_Exception e = true ->
     repair_of X eng wb errs w
     = (Return PNone, log_to ERROR (failure_label eng +:+ exn_str e) w')) /\
  (forall e w',
     attempt X eng wb errs w = (Raise e, w') ->
     isinstance_Exception e = false ->
     repair_of X eng wb errs w = (Raise e, w')) /\
  (forall e w',
     repair_of X eng wb errs w = (Raise e, w') ->
     isinstance_Exception e = false
     /\ attempt X eng wb errs w = (Raise e, w')).
Proof.
  rewrite repair_of_three_step. unfold three_step_repair.
  split; [|split].
  - intros e w' -> ->. reflexivity.
  - intros e w' -> ->. reflexivity.
  - intros e w'.
    destruct (attempt X eng wb errs w) as [[v|e0] w0]; [discriminate|].
    destruct (isinstance_Exception e0) eqn:He0; [discriminate|].
    intros [= <- <-]. split; [exact He0 | reflexivity].
Qed.

(** ** C2 *)

(** C2, as amended: every element of the list that
    [create_llm_repair_functions] returns is the closure of one engine, and
    a call of it on any two argument objects ends in one of three ways: it
    returns [None]; it returns the value that [json.loads] made of the
    model's reply; or it lets through an exception that is not an instance
    of [Exception]. *)
Theorem created_function_outcomes w0 fs w1 f :
  create_llm_repair_functions X w0 = (Return fs, w1) ->
  In f fs ->
  exists eng,
    f = function_of X eng /\
    forall wb errs w,
      fst (fn_call f wb errs w) = Return PNone
      \/ (exists response w' v,
            render_and_invoke X eng wb errs w = (Return response, w')
            /\ ext_json_loads X response = Return v
            /\ fst (fn_call f wb errs w) = Return v)
      \/ (exists e,
            fst (fn_call f wb errs w) = Raise e
            /\ isinstance_Exception e = false).
Proof.
  intros Hc Hin. destruct (create_spec w0) as [w' Hs].
  rewrite Hs in Hc. injection Hc as <- _.
  apply in_map_iff in Hin as (eng & <- & _).
  exists eng. split; [reflexivity|]. intros wb errs w.
  cbn [fn_call function_of]. rewrite repair_of_three_step.
  cbv [three_step_repair attempt]. rewrite bind_run.
  destruct (render_and_invoke X eng wb errs w) as [[r|e] wr] eqn:Hr.
  - unfold parse_reply. destruct (py_truthy r); [|left; reflexivity].
    unfold json_loads. destruct (ext_json_loads X r) as [v|e] eqn:Hv.
    + right; left. exists r, wr, v. auto.
    + destruct (isinstance_Exception e) eqn:He; [left; reflexivity|].
      right; right. exists e. auto.
  - destruct (isinstance_Exception e) eqn:He; [left; reflexivity|].
    right; right. exists e. auto.
Qed.

(** ** C3 *)

(** C3: the closure of an engine is in the list that
    [create_llm_repair_functions] returns exactly when the engine's API key
    and base URL are both truthy; the list holds nothing else; and it is
    empty when no engine has both. *)
Theorem created_iff_configured w :
  exists fs w',
    create_llm_repair_functions X w = (Return fs, w') /\
    (forall eng,
       In (function_of X eng) fs
       <-> truthy (api_key_of eng (settings w))
           && truthy (base_url_of eng (settings w)) = true) /\
    (forall f, In f fs -> exists eng, f = function_of X eng) /\
    ((forall eng, configured (settings w) eng = false) -> fs = []).
Proof.
  destruct (create_spec w) as [w' Hs].
  eexists _, w'. split; [exact Hs|]. split; [|split].
  - intros eng. rewrite in_map_iff. split.
    + intros (e' & Heq & Hin). apply function_of_inj in Heq as ->.
      apply filter_In in Hin as [_ Hc]. exact Hc.
    + intros Hc. exists eng. split; [reflexivity|].
      apply filter_In. split; [apply in_all_engines | exact Hc].
  - intros f (eng & <- & _)%in_map_iff. exists eng. reflexivity.
  - intros Hnone. cbn [all_engines List.filter]. rewrite !Hnone. reflexivity.
Qed.

(** ** C4 *)


(** ** C7 *)

(** C7: when the model's reply is a text that [json.loads] parses, the
    closure returns the parsed value itself, whatever it is: nothing in
    between inspects it.  ([json.loads] rejects the empty text, so a text
    that parses is not empty.) *)
Theorem parsed_value_returned_unchecked eng wb errs w text w1 v :
  is_Return (ext_json_loads X (PStr "")) = false ->
  render_and_invoke X eng wb errs w = (Return (PStr text), w1) ->
  ext_json_loads X (PStr text) = Return v ->
  repair_of X eng wb errs w
  = (Return v, record_call (Call_json_loads (PStr text)) (outside w1) w1).
Proof.
  intros Hempty Hr Hv.
  rewrite repair_of_three_step.
  cbv [three_step_repair attempt]. rewrite bind_run, Hr.
  unfold parse_reply, json_loads. cbn [py_truthy].
  destruct (String.eqb text "") eqn:Ht.
  - apply String.eqb_eq in Ht. subst text.
    rewrite Hv in Hempty. discriminate Hempty.
  - cbn [negb]. rewrite Hv. reflexivity.
Qed.

(** ** C8 *)

(** C8: a call of any of the four closures leaves the caller's objects as
    they were: the widget block and the errors list it was given, and every
    other object, whether the call returns a repaired block, returns [None]
    or lets an exception through. *)
Theorem repair_leaves_arguments eng wb errs w :
  heap (snd (repair_of X eng wb errs w)) !! wb = heap w !! wb /\
  heap (snd (repair_of X eng wb errs w)) !! errs = heap w !! errs /\
  heap (snd (repair_of X eng wb errs w)) = heap w.
Proof.
  destruct (keeps_repair eng wb errs w) as [Hh _].
  rewrite Hh. repeat split.
Qed.

(** ** C9 *)

(** *** Line feeds and lines *)

Lemma count_nl_app a b : count_nl (a +:+ b) = count_nl a + count_nl b.
Proof.
  induction a as [|c a IH]; [reflexivity|].
  change (String c a +:+ b) with (String c (a +:+ b)).
  cbn [count_nl]. rewrite IH. lia.
Qed.

Lemma count_nl_cons_0 a l :
  count_nl (String a l) = 0 ->
  Ascii.eqb a (Ascii.ascii_of_nat 10) = false /\ count_nl l = 0.
Proof.
  cbn [count_nl]. destruct (Ascii.eqb a (Ascii.ascii_of_nat 10)).
  - intros H. exfalso. lia.
  - intros H. split; [reflexivity | exact H].
Qed.

Lemma lines_of_one l : count_nl l = 0 -> lines_of l = [l].
Proof.
  induction l as [|a l IH]; [reflexivity|].
  intros [Ha Hl]%count_nl_cons_0.
  cbn [lines_of]. rewrite Ha, (IH Hl). reflexivity.
Qed.

Lemma lines_of_app_nl l r :
  count_nl l = 0 -> lines_of (l +:+ nl +:+ r) = l :: lines_of r.
Proof.
  induction l as [|a l IH].
  - intros _. reflexivity.
  - intros [Ha Hl]%count_nl_cons_0.
    change (String a l +:+ nl +:+ r) with (String a (l +:+ nl +:+ r)).
    cbn [lines_of]. rewrite Ha, (IH Hl). reflexivity.
Qed.

Lemma lines_of_join ls :
  ls <> [] ->
  Forall (fun l => count_nl l = 0) ls ->
  lines_of (String.concat nl ls) = ls.
Proof.
  induction ls as [|l ls IH]; [congruence|].
  intros _ Hall. apply Forall_cons in Hall as [Hl Hls].
  destruct ls as [|l' ls].
  - apply lines_of_one. exact Hl.
  - change (String.concat nl (l :: l' :: ls))
      with (l +:+ nl +:+ String.concat nl (l' :: ls)).
    rewrite (lines_of_app_nl _ _ Hl), IH; [reflexivity | discriminate | exact Hls].
Qed.

(** C9, as amended: [build_chart_repair_prompt] is deterministic: its
    result is a function of the two objects it is given and of nothing else
    in the world.  When [json.dumps(widget_block, ensure_ascii=False,
    indent=2)] yields a text and the errors are a list of strings, the
    prompt is the fixed head, that text, the fixed middle, the errors each
    after a dash and a space and joined by line feeds in the order given,
    and the fixed tail; with no errors the part between middle and tail is
    empty and the prompt is produced all the same.  The errors section is
    one line per error, each line the dash, the space and the error, when
    no error holds a line feed. *)
Theorem prompt_layout wb errs w :
  (forall w2,
     heap w2 !!! wb = heap w !!! wb ->
     heap w2 !!! errs = heap w !!! errs ->
     fst (build_chart_repair_prompt X wb errs w2)
     = fst (build_chart_repair_prompt X wb errs w)) /\
  (forall block_json es,
     ext_json_dumps X (heap w !!! wb) false (Some 2) = Return block_json ->
     heap w !!! errs = PList (map PStr es) ->
     fst (build_chart_repair_prompt X wb errs w)
     = Return (PROMPT_HEAD +:+ block_json +:+ PROMPT_MIDDLE
               +:+ String.concat nl (map (fun e => "- " +:+ e) es)
               +:+ PROMPT_TAIL) /\
     (es = [] ->
      fst (build_chart_repair_prompt X wb errs w)
      = Return (PROMPT_HEAD +:+ block_json +:+ PROMPT_MIDDLE
                +:+ "" +:+ PROMPT_TAIL)) /\
     (es <> [] ->
      Forall (fun e => count_nl e = 0) es ->
      lines_of (String.concat nl (map (fun e => "- " +:+ e) es))
      = map (fun e => "- " +:+ e) es)).
Proof.
  split.
  - intros w2 H1 H2.
    cbv [build_chart_repair_prompt mbind M_bind mret M_ret load json_dumps
         iter_list raise].
    rewrite H1.
    destruct (ext_json_dumps X (heap w !!! wb) false (Some 2));
      [|reflexivity].
    cbn [record_call heap]. rewrite H2.
    destruct (heap w !!! errs); reflexivity.
  - intros block_json es Hd He.
    assert (Hrun :
      fst (build_chart_repair_prompt X wb errs w)
      = Return (PROMPT_HEAD +:+ block_json +:+ PROMPT_MIDDLE
                +:+ String.concat nl (map (fun e => "- " +:+ e) es)
                +:+ PROMPT_TAIL)).
    { cbv [build_chart_repair_prompt mbind M_bind mret M_ret load json_dumps
           iter_list].
      rewrite Hd. cbn [record_call heap]. rewrite He. cbn [fst].
      unfold errors_text_of. rewrite map_map. reflexivity. }
    split; [exact Hrun|]. split; [intros ->; exact Hrun|].
    intros Hne Hall. apply lines_of_join.
    + destruct es; [congruence | discriminate].
    + apply Forall_map. eapply Forall_impl; [exact Hall|].
      intros e He0. cbn beta. rewrite count_nl_app. exact He0.
Qed.

(** ** C10 *)

(** C10: when the model's reply is falsy (empty text, [None]) the closure
    returns [None] and the world is as the model left it: [json.loads] is
    not called in the whole run.  When the reply parses to a value that is
    not a dict, the closure returns that value as it is. *)
Theorem falsy_reply_and_non_dict eng wb errs w response w1 :
  render_and_invoke X eng wb errs w = (Return response, w1) ->
  (py_truthy response = false ->
   repair_of X eng wb errs w = (Return PNone, w1)
   /\ forall s,
        ~ In (Call_json_loads s)
             (new_calls w (snd (repair_of X eng wb errs w)))) /\
  (forall v,
     py_truthy response = true ->
     ext_json_loads X response = Return v ->
     is_dict v = false ->
     fst (repair_of X eng wb errs w) = Return v /\ is_dict v = false).
Proof.
  intros Hr.
  pose proof (render_makes_no_parse eng wb errs w) as Hn.
  rewrite repair_of_three_step.
  cbv [three_step_repair attempt]. rewrite bind_run.
  rewrite Hr in *. unfold parse_reply, json_loads. split.
  - intros ->. split; [reflexivity|]. exact Hn.
  - intros v -> -> Hd. split; [reflexivity | exact Hd].
Qed.

(** ** Further properties of the module *)

(** *** Helpers *)

Lemma attempt_trace eng wb errs w :
  exists prompt response l,
    calls (snd (attempt X eng wb errs w)) = calls w ++ l /\
    l `prefix_of` steps_of eng (settings w) (heap w !!! wb) prompt response.
Proof.
  unfold_run.
  repeat destruct_ext.
  all: eexists _, _, _; split;
    [cbn [record_call calls snd]; rewrite <- ?app_assoc;
     first [reflexivity | symmetry; apply app_nil_r]|].
  all: unfold steps_of; cbn [app].
  all: repeat (first [apply prefix_cons | apply prefix_nil]).
  Unshelve. all: first [exact "" | exact PNone].
Qed.

Lemma attempt_keeps_sink eng wb errs w :
  sink (snd (attempt X eng wb errs w)) = sink w.
Proof. unfold_run. repeat destruct_ext. all: reflexivity. Qed.

Lemma repair_calls eng wb errs w :
  calls (snd (repair_of X eng wb errs w))
  = calls (snd (attempt X eng wb errs w)).
Proof.
  rewrite repair_of_three_step. apply three_step_calls.
Qed.

Lemma filter_prefix_length {A} (p : A -> bool) (l k : list A) :
  l `prefix_of` k ->
  length (List.filter p l) <= length (List.filter p k).
Proof.
  intros [k' ->]. rewrite List.filter_app, length_app. lia.
Qed.

Lemma count_nl_join_lines es :
  es <> [] ->
  count_nl (String.concat nl (map (fun e => "- " +:+ e) es)) + 1
  = length es + sum_list (map count_nl es).
Proof.
  induction es as [|e es IH]; [congruence|]. intros _.
  destruct es as [|e' es].
  - change (count_nl ("- " +:+ e) + 1 = 1 + (count_nl e + 0)).
    rewrite count_nl_app. change (count_nl "- ") with 0. lia.
  - assert (e' :: es <> []) as Hne by discriminate.
    specialize (IH Hne).
    change (String.concat nl (map (fun e => "- " +:+ e) (e :: e' :: es)))
      with (("- " +:+ e) +:+ nl
            +:+ String.concat nl (map (fun e => "- " +:+ e) (e' :: es))).
    set (rest := String.concat nl (map (fun e => "- " +:+ e) (e' :: es))) in *.
    rewrite !count_nl_app.
    change (count_nl nl) with 1. change (count_nl "- ") with 0.
    change (length (e :: e' :: es)) with (S (length (e' :: es))).
    change (sum_list (map count_nl (e :: e' :: es)))
      with (count_nl e + sum_list (map count_nl (e' :: es))).
    lia.
Qed.

(** *** X1 *)

(** X1: the list that [create_llm_repair_functions] returns holds the
    closures of the configured engines in the fixed order Report, Forum,
    Insight, Media, each once: it has at most four elements and no function
    name twice. *)
Theorem created_in_engine_order w :
  exists fs w',
    create_llm_repair_functions X w = (Return fs, w') /\
    fs = map (function_of X) (List.filter (configured (settings w)) all_engines) /\
    map fn_name fs `sublist_of` map function_name all_engines /\
    NoDup (map fn_name fs) /\
    length fs <= 4.
Proof.
  destruct (create_spec w) as [w' Hs].
  eexists _, w'. split; [exact Hs|]. split; [reflexivity|].
  cbv [all_engines List.filter].
  destruct (configured (settings w) ReportEngine),
    (configured (settings w) ForumEngine),
    (configured (settings w) InsightEngine),
    (configured (settings w) MediaEngine);
    cbn [map function_of fn_name function_name length].
  all: split; [|split; [|lia]].
  all: try (repeat first [apply sublist_nil | apply sublist_skip
                         | apply sublist_cons]; fail).
  all: repeat first [apply NoDup_nil_2 | apply NoDup_cons_2];
    rewrite ?elem_of_cons, ?elem_of_nil; intros H;
    repeat destruct H as [H|H]; try discriminate H; exact H.
Qed.

(** *** X2 *)

(** X2: [create_llm_repair_functions] always returns; it creates no client
    and calls nothing outside the module, leaves the settings and the
    caller's objects alone, and logs one WARNING when no engine is
    configured and nothing otherwise. *)
Theorem create_only_warns w :
  is_Return (fst (create_llm_repair_functions X w)) = true /\
  settings (snd (create_llm_repair_functions X w)) = settings w /\
  heap (snd (create_llm_repair_functions X w)) = heap w /\
  calls (snd (create_llm_repair_functions X w)) = calls w /\
  outside (snd (create_llm_repair_functions X w)) = outside w /\
  sink (snd (create_llm_repair_functions X w))
  = sink w ++ (if existsb (configured (settings w)) all_engines
               then []
               else [(WARNING, NO_ENGINE_WARNING)]).
Proof.
  cbv [create_llm_repair_functions read_settings all_engines existsb
       configured api_key_of base_url_of model_name_of mbind M_bind].
  destruct (truthy (REPORT_ENGINE_API_KEY (settings w))
            && truthy (REPORT_ENGINE_BASE_URL (settings w)));
  destruct (truthy (FORUM_HOST_API_KEY (settings w))
            && truthy (FORUM_HOST_BASE_URL (settings w)));
  destruct (truthy (INSIGHT_ENGINE_API_KEY (settings w))
            && truthy (INSIGHT_ENGINE_BASE_URL (settings w)));
  destruct (truthy (MEDIA_ENGINE_API_KEY (settings w))
            && truthy (MEDIA_ENGINE_BASE_URL (settings w)));
  cbn [orb app list_truthy length Nat.eqb negb logger_warning mret M_ret
       log_to fst snd settings heap calls outside sink is_Return];
  rewrite ?app_nil_r; repeat split.
Qed.

(** *** X3 *)

(** X3: a closure reads the settings when it is called, not when it is
    created.  Whatever the settings were at creation, a call whose import
    succeeds creates its client from the key, the base URL and the model
    name (or gpt-4) that the settings hold in the world of the call. *)
Theorem closure_reads_settings_at_call_time w0 fs w1 f :
  create_llm_repair_functions X w0 = (Return fs, w1) ->
  In f fs ->
  exists eng,
    configured (settings w0) eng = true /\
    forall wb errs w e1,
      ext_import X (outside w) = (Return tt, e1) ->
      exists rest,
        new_calls w (snd (fn_call f wb errs w))
        = Call_import_LLMClient
          :: Call_LLMClient (api_key_of eng (settings w))
               (base_url_of eng (settings w))
               (py_or (model_name_of eng (settings w)) "gpt-4")
          :: rest.
Proof.
  intros Hc Hin. destruct (create_spec w0) as [w' Hs].
  assert (Hfs : fs = map (function_of X)
                       (List.filter (configured (settings w0)) all_engines))
    by congruence.
  rewrite Hfs in Hin. apply in_map_iff in Hin as (eng & <- & Hin).
  apply filter_In in Hin as [_ Hconf].
  exists eng. split; [exact Hconf|]. intros wb errs w e1 He1.
  cbn [fn_call function_of]. unfold new_calls. rewrite repair_calls.
  fold (new_calls w (snd (attempt X eng wb errs w))).
  unfold_run. rewrite He1.
  repeat destruct_ext.
  all: eexists; apply new_calls_app; cbn [record_call calls snd];
    rewrite <- ?app_assoc; reflexivity.
Qed.

(** *** X4 *)

(** X4: one call is one shot.  It records at most five calls to the
    outside, creates at most one client, invokes the model at most once and
    parses at most once: there is no retry. *)
Theorem repair_is_single_shot eng wb errs w :
  length (new_calls w (snd (repair_of X eng wb errs w))) <= 5 /\
  length (List.filter is_LLMClient
            (new_calls w (snd (repair_of X eng wb errs w)))) <= 1 /\
  length (List.filter is_invoke
            (new_calls w (snd (repair_of X eng wb errs w)))) <= 1 /\
  length (List.filter is_json_loads
            (new_calls w (snd (repair_of X eng wb errs w)))) <= 1.
Proof.
  destruct (attempt_calls eng wb errs w) as (prompt & response & Hp).
  unfold new_calls in *. rewrite repair_calls.
  split; [apply prefix_length in Hp; exact Hp|].
  repeat split.
  all: eapply Nat.le_trans; [apply filter_prefix_length; exact Hp|].
  all: cbn; lia.
Qed.

(** *** X5 *)

(** X5: when [json.dumps] raises on the widget block, the model is never
    invoked and nothing is parsed; the call returns [None], or lets through
    an exception that is not an instance of [Exception]. *)
Theorem unserializable_widget_never_reaches_model eng wb errs w e :
  ext_json_dumps X (heap w !!! wb) false (Some 2) = Raise e ->
  List.filter is_invoke (new_calls w (snd (repair_of X eng wb errs w))) = [] /\
  List.filter is_json_loads
    (new_calls w (snd (repair_of X eng wb errs w))) = [] /\
  (fst (repair_of X eng wb errs w) = Return PNone
   \/ exists e',
        fst (repair_of X eng wb errs w) = Raise e'
        /\ isinstance_Exception e' = false).
Proof.
  intros Hd. unfold new_calls. rewrite repair_calls.
  fold (new_calls w (snd (attempt X eng wb errs w))).
  rewrite repair_of_three_step.
  unfold_run.
  repeat first [rewrite Hd | destruct_ext].
  all: (erewrite new_calls_app;
        [|cbn [record_call calls snd]; rewrite <- ?app_assoc;
          first [reflexivity | symmetry; apply app_nil_r]]).
  all: cbn [List.filter is_invoke is_json_loads app fst].
  all: split; [reflexivity|]; split; [reflexivity|].
  all: first [left; reflexivity | right; eexists; split; [reflexivity|]; assumption].
Qed.

(** *** X6 *)

(** X6: a call logs exactly when it swallows an exception: one ERROR
    record, the engine's label followed by [str(e)], after a caught
    instance of [Exception], and nothing in every other case.  So a call
    that returns a value other than [None] has logged nothing. *)
Theorem repair_logs_exactly_caught_exceptions eng wb errs w :
  sink (snd (repair_of X eng wb errs w))
  = sink w ++ match fst (attempt X eng wb errs w) with
              | Raise e =>
                  if isinstance_Exception e
                  then [(ERROR, failure_label eng +:+ exn_str e)]
                  else []
              | Return _ => []
              end /\
  (forall v,
     fst (repair_of X eng wb errs w) = Return v ->
     v <> PNone ->
     sink (snd (repair_of X eng wb errs w)) = sink w).
Proof.
  pose proof (attempt_keeps_sink eng wb errs w) as Hs.
  rewrite repair_of_three_step. unfold three_step_repair.
  destruct (attempt X eng wb errs w) as [[v|e] w1]; cbn [fst snd] in *.
  - rewrite app_nil_r. split; [exact Hs|]. intros; exact Hs.
  - destruct (isinstance_Exception e); cbn [fst snd log_to sink].
    + rewrite Hs. split; [reflexivity|]. intros v [= <-] Hv. congruence.
    + rewrite app_nil_r. split; [exact Hs|]. intros v Hv. discriminate Hv.
Qed.

(** *** X7 *)

(** X7: a call only adds to the world: the settings are as before, and the
    record of calls and the log keep what they held and grow at the end. *)
Theorem repair_world_only_grows eng wb errs w :
  settings (snd (repair_of X eng wb errs w)) = settings w /\
  calls w `prefix_of` calls (snd (repair_of X eng wb errs w)) /\
  sink w `prefix_of` sink (snd (repair_of X eng wb errs w)).
Proof.
  split; [apply keeps_repair|]. split.
  - rewrite repair_calls.
    destruct (attempt_trace eng wb errs w) as (p & r & l & -> & _).
    apply prefix_app_r. reflexivity.
  - pose proof (attempt_keeps_sink eng wb errs w) as Hs.
    rewrite repair_of_three_step. unfold three_step_repair.
    destruct (attempt X eng wb errs w) as [[v|e] w1]; cbn [fst snd] in *.
    + rewrite Hs. reflexivity.
    + destruct (isinstance_Exception e); cbn [snd log_to sink]; rewrite Hs;
        [apply prefix_app_r|]; reflexivity.
Qed.

(** *** X8 *)

(** X8: [build_chart_repair_prompt] has one effect, whatever its outcome:
    the single call of [json.dumps] on the widget block with
    [ensure_ascii=False] and [indent=2].  It has no handler: when
    [json.dumps] raises, it raises the same exception; and when the errors
    are a list, it returns a prompt exactly when [json.dumps] returns. *)
Theorem build_prompt_only_serializes wb errs w :
  snd (build_chart_repair_prompt X wb errs w)
  = record_call (Call_json_dumps (heap w !!! wb) false (Some 2))
      (outside w) w /\
  (forall e,
     ext_json_dumps X (heap w !!! wb) false (Some 2) = Raise e ->
     fst (build_chart_repair_prompt X wb errs w) = Raise e) /\
  (forall es,
     heap w !!! errs = PList es ->
     is_Return (fst (build_chart_repair_prompt X wb errs w))
     = is_Return (ext_json_dumps X (heap w !!! wb) false (Some 2))).
Proof.
  cbv [build_chart_repair_prompt mbind M_bind mret M_ret load json_dumps
       iter_list raise].
  destruct (ext_json_dumps X (heap w !!! wb) false (Some 2)) as [bj|e0];
    cbn [record_call heap fst snd].
  - split; [destruct (heap w !!! errs); reflexivity|].
    split; [discriminate|]. intros es ->. reflexivity.
  - split; [reflexivity|]. split; [|reflexivity]. intros e [= ->]. reflexivity.
Qed.

(** *** X9 *)

(** X9: the errors section of the prompt has one line feed between two
    errors and none of its own besides: for a list of error strings that is
    not empty, its number of lines is the number of errors plus the number
    of line feeds inside the errors.  It is one line per error exactly when
    no error contains a line feed. *)
Theorem errors_section_lines es :
  es <> [] ->
  count_nl (errors_text_of X (map PStr es)) + 1
  = length es + sum_list (map count_nl es).
Proof.
  intros Hne. unfold errors_text_of. rewrite map_map.
  cbn [format_value]. apply count_nl_join_lines. exact Hne.
Qed.

(** *** X10 *)

(** X10: the text of an ERROR record tells which engine failed and with
    what: two records with the same text come from the same engine and
    carry the same [str(e)]. *)
Theorem failure_record_identifies_engine e1 e2 m1 m2 :
  failure_label e1 +:+ m1 = failure_label e2 +:+ m2 ->
  e1 = e2 /\ m1 = m2.
Proof.
  intros H.
  assert (He : e1 = e2).
  { destruct e1, e2; try reflexivity; exfalso;
      cbv [failure_label String.append] in H; discriminate H. }
  subst e2. split; [reflexivity|].
  exact (String.app_inj _ _ _ H).
Qed.

(** *** X11 *)

(** X11: what the model is asked is what [build_chart_repair_prompt]
    renders.  Whenever a call invokes the model, the system prompt is
    [CHART_REPAIR_SYSTEM_PROMPT], the temperature 0.0, top_p 0.05, and the
    user prompt the one the prompt builder returns for the same two
    arguments. *)
Theorem model_gets_rendered_prompt eng wb errs w s p t tp :
  In (Call_invoke s p t tp) (new_calls w (snd (repair_of X eng wb errs w))) ->
  s = CHART_REPAIR_SYSTEM_PROMPT /\
  t = 0.0%float /\
  tp = 0.05%float /\
  fst (build_chart_repair_prompt X wb errs w) = Return p.
Proof.
  unfold new_calls. rewrite repair_calls.
  fold (new_calls w (snd (attempt X eng wb errs w))).
  unfold_run.
  repeat destruct_ext.
  all: (erewrite new_calls_app;
        [|cbn [record_call calls snd]; rewrite <- ?app_assoc;
          first [reflexivity | symmetry; apply app_nil_r]]).
  all: cbn [In app]; intros H; repeat destruct H as [H|H];
    try discriminate H; try contradiction.
  all: injection H as <- <- <- <-; repeat split.
Qed.

(** *** X12 *)

(** X12: [json.loads] is given the model's reply as it came.  Whenever a
    call parses something, that something is a truthy reply of the model,
    passed on unchanged: nothing strips code fences or white space. *)
Theorem parser_gets_reply_verbatim eng wb errs w r :
  In (Call_json_loads r) (new_calls w (snd (repair_of X eng wb errs w))) ->
  py_truthy r = true /\
  exists w1, render_and_invoke X eng wb errs w = (Return r, w1).
Proof.
  unfold new_calls. rewrite repair_calls.
  fold (new_calls w (snd (attempt X eng wb errs w))).
  unfold_run.
  repeat destruct_ext.
  all: (erewrite new_calls_app;
        [|cbn [record_call calls snd]; rewrite <- ?app_assoc;
          first [reflexivity | symmetry; apply app_nil_r]]).
  all: cbn [In app]; intros H; repeat destruct H as [H|H];
    try discriminate H; try contradiction.
  all: injection H as <-; split; [congruence | eexists; reflexivity].
Qed.

(** *** X13 *)

(** X13: a call stops at the first step that raises.  When the import
    raises, the import is the only call made; when the import succeeds and
    the creation of the client raises, no prompt is built and no model is
    asked: the two calls are all there is, and the outside is as the failed
    step left it. *)
Theorem repair_stops_at_first_failure eng wb errs w :
  (forall e e1,
     ext_import X (outside w) = (Raise e, e1) ->
     new_calls w (snd (repair_of X eng wb errs w)) = [Call_import_LLMClient]
     /\ outside (snd (repair_of X eng wb errs w)) = e1) /\
  (forall e e1 e2,
     ext_import X (outside w) = (Return tt, e1) ->
     ext_LLMClient X (api_key_of eng (settings w))
       (base_url_of eng (settings w))
       (py_or (model_name_of eng (settings w)) "gpt-4") e1 = (Raise e, e2) ->
     new_calls w (snd (repair_of X eng wb errs w))
     = [Call_import_LLMClient;
        Call_LLMClient (api_key_of eng (settings w))
          (base_url_of eng (settings w))
          (py_or (model_name_of eng (settings w)) "gpt-4")]
     /\ outside (snd (repair_of X eng wb errs w)) = e2).
Proof.
  unfold new_calls. rewrite repair_calls.
  fold (new_calls w (snd (attempt X eng wb errs w))).
  rewrite repair_of_three_step.
  rewrite (proj2 (three_step_calls eng wb errs w)).
  unfold_run. split.
  - intros e e1 ->. split; [|reflexivity].
    apply new_calls_app. reflexivity.
  - intros e e1 e2 ->. cbn [record_call settings outside].
    intros ->. split; [|reflexivity].
    apply new_calls_app. cbn [record_call calls snd].
    rewrite <- ?app_assoc. reflexivity.
Qed.

(** *** X14 *)

(** X14: creation consumes nothing.  Creating the list a second time, in
    the world the first creation left, returns the same list. *)
Theorem creation_is_repeatable w :
  fst (create_llm_repair_functions X
         (snd (create_llm_repair_functions X w)))
  = fst (create_llm_repair_functions X w).
Proof.
  destruct (create_spec w) as [w1 H1].
  destruct (create_spec w1) as [w2 H2].
  rewrite H1. cbn [fst snd]. rewrite H2. cbn [fst].
  assert (Hs : settings w1 = settings w); [|rewrite Hs; reflexivity].
  revert H1.
  cbv [create_llm_repair_functions read_settings mbind M_bind].
  destruct (list_truthy _); cbn [negb logger_warning mret M_ret];
    intros [= _ <-]; reflexivity.
Qed.

End Properties.

(** * Properties of chapter sanitization *)

Section SanitizationProperties.

Context (fallback_text : pyval -> pyval).

#[local] Abbreviation san := (sanitize fallback_text).

(** ** Dict entries *)

Lemma dict_get_map_entry k f d :
  dict_get k (map_entry k f d) = f <$> dict_get k d.
Proof.
  unfold map_entry.
  induction d as [|[k' v] d IH]; [reflexivity|].
  cbn [map dict_get fst snd].
  destruct (String.eqb k' k) eqn:Hk; cbn [dict_get]; rewrite Hk;
    [reflexivity | exact IH].
Qed.

Lemma dict_get_map_entry_ne k k' f d :
  k' <> k -> dict_get k' (map_entry k f d) = dict_get k' d.
Proof.
  intros Hne. unfold map_entry.
  induction d as [|[k0 v] d IH]; [reflexivity|].
  cbn [map dict_get fst snd].
  destruct (String.eqb k0 k) eqn:Hk; cbn [dict_get]; [|rewrite IH; reflexivity].
  apply String.eqb_eq in Hk. subst k0.
  destruct (String.eqb k k') eqn:Hk'; [|exact IH].
  apply String.eqb_eq in Hk'. congruence.
Qed.

Lemma dict_get_set k v d : dict_get k (dict_set k v d) = Some v.
Proof.
  induction d as [|[k' v'] d IH]; cbn [dict_set dict_get].
  - rewrite String.eqb_refl. reflexivity.
  - destruct (String.eqb k' k) eqn:Hk; cbn [dict_get]; rewrite Hk;
      [reflexivity | exact IH].
Qed.

(** ** One level of the walk *)

Lemma item_Some_list i v x :
  item i v = Some x -> exists l, v = PList l /\ l !! i = Some x.
Proof. destruct v; try discriminate. intros H. eauto. Qed.

Lemma get_Some_dict k v x :
  get k v = Some x -> exists d, v = PDict d /\ dict_get k d = Some x.
Proof. destruct v; try discriminate. intros H. eauto. Qed.

Lemma item_san (kind inner : node_kind) i v x :
  (forall l, san kind (PList l) = PList (map (san inner) l)) ->
  item i v = Some x ->
  item i (san kind v) = Some (san inner x).
Proof.
  intros Hk (l & -> & Hl)%item_Some_list.
  rewrite Hk. cbn [item]. rewrite list_lookup_fmap, Hl. reflexivity.
Qed.

Lemma is_table_san b : is_table (san Block b) = is_table b.
Proof.
  destruct b; try reflexivity.
  cbn [sanitize]. destruct (is_table (PDict entries)) eqn:Ht; [|exact Ht].
  unfold is_table in *. cbn [get] in *.
  rewrite dict_get_map_entry_ne; [exact Ht | discriminate].
Qed.

Lemma rows_san b rows :
  is_table b = true ->
  get "rows" b = Some rows ->
  get "rows" (san Block b) = Some (san Rows rows).
Proof.
  intros Ht (d & -> & Hd)%get_Some_dict.
  cbn [sanitize]. rewrite Ht. cbn [get].
  rewrite dict_get_map_entry, Hd. reflexivity.
Qed.

Lemma cells_san row cells :
  get "cells" row = Some cells ->
  get "cells" (san Row row) = Some (san Cells cells).
Proof.
  intros (d & -> & Hd)%get_Some_dict.
  cbn [sanitize get]. rewrite dict_get_map_entry, Hd. reflexivity.
Qed.

Lemma row_in_blocks_san blocks i j row :
  row_in_blocks blocks i j = Some row ->
  row_in_blocks (san Blocks blocks) i j = Some (san Row row).
Proof.
  unfold row_in_blocks. intros H.
  destruct (item i blocks) as [b|] eqn:Hb; [|discriminate].
  cbn [mbind option_bind] in *.
  erewrite (item_san Blocks Block) by (reflexivity || exact Hb).
  cbn [mbind option_bind]. rewrite is_table_san.
  destruct (is_table b) eqn:Ht; [|discriminate].
  destruct (get "rows" b) as [rows|] eqn:Hr; [|discriminate].
  cbn [mbind option_bind] in *.
  rewrite (rows_san b rows Ht Hr). cbn [mbind option_bind].
  apply (item_san Rows Row); [reflexivity | exact H].
Qed.

Lemma cell_in_blocks_san blocks i j c cell :
  cell_in_blocks blocks i j c = Some cell ->
  cell_in_blocks (san Blocks blocks) i j c = Some (san Cell cell).
Proof.
  unfold cell_in_blocks. intros H.
  destruct (row_in_blocks blocks i j) as [row|] eqn:Hrow; [|discriminate].
  rewrite (row_in_blocks_san _ _ _ _ Hrow).
  cbn [mbind option_bind] in *.
  destruct (get "cells" row) as [cells|] eqn:Hc; [|discriminate].
  rewrite (cells_san _ _ Hc). cbn [mbind option_bind] in *.
  apply (item_san Cells Cell); [reflexivity | exact H].
Qed.

(** A cell that holds a block keeps its entry, sanitized. *)
Lemma blocks_of_cell_san cell blocks i b :
  get "blocks" cell = Some blocks ->
  item i blocks = Some b ->
  get "blocks" (san Cell cell) = Some (san Blocks blocks).
Proof.
  intros (d & -> & Hd)%get_Some_dict (l & -> & Hl)%item_Some_list.
  cbn [sanitize blocks_missing]. rewrite Hd.
  destruct l as [|b0 l]; [discriminate Hl|].
  cbn [get]. rewrite dict_get_map_entry, Hd. reflexivity.
Qed.

Lemma blocks_of_chapter_san chapter blocks :
  get "blocks" chapter = Some blocks ->
  get "blocks" (sanitize_chapter fallback_text chapter)
  = Some (san Blocks blocks).
Proof.
  intros (d & -> & Hd)%get_Some_dict.
  cbn [sanitize_chapter get]. rewrite dict_get_map_entry, Hd. reflexivity.
Qed.

Lemma cell_in_blocks_item blocks i j c cell :
  cell_in_blocks blocks i j c = Some cell -> exists b, item i blocks = Some b.
Proof.
  unfold cell_in_blocks, row_in_blocks.
  destruct (item i blocks) as [b|]; [eauto | discriminate].
Qed.

Lemma row_in_blocks_item blocks i j row :
  row_in_blocks blocks i j = Some row -> exists b, item i blocks = Some b.
Proof.
  unfold row_in_blocks.
  destruct (item i blocks) as [b|]; [eauto | discriminate].
Qed.

(** ** The whole way down *)

Lemma table_cell_san_cell way holder cell :
  way <> [] ->
  table_cell way holder = Some cell ->
  table_cell way (san Cell holder) = Some (san Cell cell).
Proof.
  revert holder. induction way as [|[[i j] c] rest IH]; [congruence|].
  intros holder _ H. cbn [table_cell] in *.
  destruct (get "blocks" holder) as [blocks|] eqn:Hb; [|discriminate].
  cbn [mbind option_bind] in *.
  destruct (cell_in_blocks blocks i j c) as [c1|] eqn:Hc; [|discriminate].
  cbn [mbind option_bind] in *.
  destruct (cell_in_blocks_item _ _ _ _ _ Hc) as [b Hi].
  rewrite (blocks_of_cell_san _ _ _ _ Hb Hi). cbn [mbind option_bind].
  rewrite (cell_in_blocks_san _ _ _ _ _ Hc). cbn [mbind option_bind].
  destruct rest as [|step rest].
  - cbn [table_cell] in *. congruence.
  - apply IH; [discriminate | exact H].
Qed.

Lemma table_cell_san_chapter way chapter cell :
  way <> [] ->
  table_cell way chapter = Some cell ->
  table_cell way (sanitize_chapter fallback_text chapter)
  = Some (san Cell cell).
Proof.
  destruct way as [|[[i j] c] rest]; [congruence|].
  intros _ H. cbn [table_cell] in *.
  destruct (get "blocks" chapter) as [blocks|] eqn:Hb; [|discriminate].
  cbn [mbind option_bind] in *.
  destruct (cell_in_blocks blocks i j c) as [c1|] eqn:Hc; [|discriminate].
  cbn [mbind option_bind] in *.
  rewrite (blocks_of_chapter_san _ _ Hb). cbn [mbind option_bind].
  rewrite (cell_in_blocks_san _ _ _ _ _ Hc). cbn [mbind option_bind].
  destruct rest as [|step rest].
  - cbn [table_cell] in *. congruence.
  - apply table_cell_san_cell; [discriminate | exact H].
Qed.

Lemma sanitize_in_place ch h chapter :
  h !! ch = Some chapter ->
  _sanitize_chapter_blocks fallback_text ch h !! ch
  = Some (sanitize_chapter fallback_text chapter).
Proof.
  intros H. unfold _sanitize_chapter_blocks.
  rewrite lookup_alter_eq, H. reflexivity.
Qed.

(** ** C5 *)

(** C5: a table cell of the chapter, at any depth, whose blocks entry is an
    empty list, [None] or absent has, after [_sanitize_chapter_blocks], a
    blocks entry that is a non-empty list of blocks of type paragraph. *)
Theorem empty_cell_blocks_repaired ch h chapter way cell :
  h !! ch = Some chapter ->
  way <> [] ->
  table_cell way chapter = Some cell ->
  blocks_missing cell = true ->
  exists chapter' cell' blocks,
    _sanitize_chapter_blocks fallback_text ch h !! ch = Some chapter' /\
    table_cell way chapter' = Some cell' /\
    get "blocks" cell' = Some (PList blocks) /\
    blocks <> [] /\
    Forall (fun b => get "type" b = Some (PStr "paragraph")) blocks.
Proof.
  intros Hh Hway Hcell Hmiss.
  exists (sanitize_chapter fallback_text chapter), (san Cell cell),
    [paragraph (fallback_text cell)].
  split; [apply sanitize_in_place; exact Hh|].
  split; [apply table_cell_san_chapter; assumption|].
  split; [|split; [discriminate|]].
  - destruct cell; try discriminate Hmiss.
    cbn [sanitize]. rewrite Hmiss. cbn [get]. apply dict_get_set.
  - constructor; [reflexivity | constructor].
Qed.

(** ** C6 *)

(** C6: a row of a table of the chapter, at any depth, that is a scalar
    (a string, a number, a boolean) is, after [_sanitize_chapter_blocks],
    a row object with exactly one cell, whose blocks are one paragraph
    whose inline text is the scalar. *)
Theorem scalar_rows_expanded ch h chapter way holder blocks i j scalar :
  h !! ch = Some chapter ->
  table_cell way chapter = Some holder ->
  get "blocks" holder = Some blocks ->
  row_in_blocks blocks i j = Some scalar ->
  is_scalar scalar = true ->
  exists chapter' holder' blocks' row' cell' block,
    _sanitize_chapter_blocks fallback_text ch h !! ch = Some chapter' /\
    table_cell way chapter' = Some holder' /\
    get "blocks" holder' = Some blocks' /\
    row_in_blocks blocks' i j = Some row' /\
    is_dict row' = true /\
    get "cells" row' = Some (PList [cell']) /\
    get "blocks" cell' = Some (PList [block]) /\
    get "type" block = Some (PStr "paragraph") /\
    paragraph_text block = Some scalar.
Proof.
  intros Hh Hway Hb Hrow Hs.
  destruct (row_in_blocks_item _ _ _ _ Hrow) as [b Hi].
  exists (sanitize_chapter fallback_text chapter).
  exists (match way with [] => sanitize_chapter fallback_text chapter
                    | _ => san Cell holder end).
  exists (san Blocks blocks), (single_cell_row scalar).
  exists (PDict [("blocks", PList [paragraph scalar])]), (paragraph scalar).
  split; [apply sanitize_in_place; exact Hh|].
  split; [|split; [|split]].
  - destruct way as [|step rest].
    + cbn [table_cell] in *. reflexivity.
    + apply table_cell_san_chapter; [discriminate | exact Hway].
  - destruct way as [|step rest].
    + cbn [table_cell] in Hway. injection Hway as ->.
      apply blocks_of_chapter_san. exact Hb.
    + apply (blocks_of_cell_san _ _ _ _ Hb Hi).
  - rewrite (row_in_blocks_san _ _ _ _ Hrow).
    destruct scalar; try discriminate Hs; reflexivity.
  - repeat split.
Qed.

End SanitizationProperties.

(** * The theorems at work on the sample inputs *)

(** C1, the claim as stated fails: when the request to the model is
    interrupted, the attempt raises KeyboardInterrupt and the Report engine's
    closure passes it on to its caller. *)
Lemma keyboard_interrupt_escapes :
  fst (attempt outside_interrupted ReportEngine widget_loc errors_loc
         sample_world) = Raise KeyboardInterrupt /\
  fst (repair_with_report_engine outside_interrupted widget_loc errors_loc
         sample_world) = Raise KeyboardInterrupt.
Proof. split; vm_compute; reflexivity. Qed.

(** C1, amended, on a reply that is not JSON: [json.loads] raises, the
    closure logs the failure and returns [None]. *)
Lemma repair_catches_Exception_witness :
  repair_of outside_unparsable ReportEngine widget_loc errors_loc sample_world
  = (Return PNone,
     log_to ERROR (failure_label ReportEngine +:+ "Expecting value")
       (snd (attempt outside_unparsable ReportEngine widget_loc errors_loc
               sample_world))).
Proof.
  apply (proj1 (repair_catches_Exception outside_unparsable ReportEngine
                  widget_loc errors_loc sample_world)
           (PyException "JSONDecodeError" "Expecting value")).
  - vm_compute; reflexivity.
  - reflexivity.
Defined.

(** C2, the claim as stated fails: with a client whose creation raises
    SystemExit, both closures of the created list end in that exception,
    which is neither a repaired block nor [None]. *)
Lemma system_exit_is_a_third_outcome :
  match fst (create_llm_repair_functions outside_exiting sample_world) with
  | Return fs =>
      map (fun f => fst (fn_call f widget_loc errors_loc sample_world)) fs
  | Raise _ => []
  end = [Raise SystemExit; Raise SystemExit].
Proof. vm_compute; reflexivity. Qed.

(** C2, amended, on the list created from the sample settings. *)
Lemma created_function_outcomes_witness :
  exists eng,
    function_of outside_list ReportEngine = function_of outside_list eng /\
    forall wb errs w,
      fst (fn_call (function_of outside_list ReportEngine) wb errs w)
      = Return PNone
      \/ (exists response w' v,
            render_and_invoke outside_list eng wb errs w
            = (Return response, w')
            /\ ext_json_loads outside_list response = Return v
            /\ fst (fn_call (function_of outside_list ReportEngine) wb errs w)
               = Return v)
      \/ (exists e,
            fst (fn_call (function_of outside_list ReportEngine) wb errs w)
            = Raise e
            /\ isinstance_Exception e = false).
Proof.
  apply (created_function_outcomes outside_list sample_world
           [function_of outside_list ReportEngine;
            function_of outside_list MediaEngine]
           sample_world).
  - reflexivity.
  - left. reflexivity.
Defined.


(** C7 on a reply that parses to a chart whose datasets are a string: the
    closure hands it back as it is. *)
Lemma parsed_value_returned_unchecked_witness :
  fst (repair_of outside_bad_chart MediaEngine widget_loc errors_loc
         sample_world) = Return bad_chart.
Proof.
  refine (f_equal fst
    (parsed_value_returned_unchecked outside_bad_chart MediaEngine
       widget_loc errors_loc sample_world reply_bad_chart
       (snd (render_and_invoke outside_bad_chart MediaEngine widget_loc
               errors_loc sample_world))
       bad_chart _ _ _)).
  - reflexivity.
  - vm_compute; reflexivity.
  - reflexivity.
Defined.

(** C9, the claim as stated fails: one validation error whose text holds
    a line feed gives an errors section of two lines, and the second line
    does not start with the dash. *)
Lemma error_with_line_feed_spans_two_lines :
  fst (build_chart_repair_prompt outside_list widget_loc errors_loc
         two_line_world)
  = Return (PROMPT_HEAD +:+ encode 0 sample_widget +:+ PROMPT_MIDDLE
            +:+ ("- first" +:+ nl +:+ "second") +:+ PROMPT_TAIL)
  /\ length [two_line_error] = 1
  /\ lines_of (errors_text_of outside_list [PStr two_line_error])
     = ["- first"; "second"].
Proof. repeat split; vm_compute; reflexivity. Qed.

(** C9, amended, on the sample widget and its two errors. *)
Lemma prompt_layout_witness :
  fst (build_chart_repair_prompt outside_list widget_loc errors_loc
         sample_world)
  = Return (PROMPT_HEAD +:+ encode 0 sample_widget +:+ PROMPT_MIDDLE
            +:+ String.concat nl (map (fun e => "- " +:+ e) sample_errors)
            +:+ PROMPT_TAIL).
Proof.
  refine (proj1 (proj2 (prompt_layout outside_list widget_loc errors_loc
                          sample_world)
                   (encode 0 sample_widget) sample_errors _ _)).
  - reflexivity.
  - reflexivity.
Defined.

(** C10 on an empty reply and on a reply that is a JSON list. *)
Lemma falsy_reply_and_non_dict_witness :
  repair_of outside_silent MediaEngine widget_loc errors_loc sample_world
  = (Return PNone,
     snd (render_and_invoke outside_silent MediaEngine widget_loc errors_loc
            sample_world)) /\
  fst (repair_of outside_list MediaEngine widget_loc errors_loc sample_world)
  = Return (PList [PInt 1; PInt 2]).
Proof.
  split.
  - refine (proj1 (proj1
      (falsy_reply_and_non_dict outside_silent MediaEngine widget_loc
         errors_loc sample_world (PStr "") _ _) _)).
    + vm_compute; reflexivity.
    + reflexivity.
  - refine (proj1 (proj2
      (falsy_reply_and_non_dict outside_list MediaEngine widget_loc
         errors_loc sample_world (PStr reply_list)
         (snd (render_and_invoke outside_list MediaEngine widget_loc
                 errors_loc sample_world)) _)
      (PList [PInt 1; PInt 2]) _ _ _)).
    + vm_compute; reflexivity.
    + reflexivity.
    + reflexivity.
    + reflexivity.
Defined.

(** C5 on the chapter of [test_table_cell_empty_blocks_repaired], second
    cell of the first row. *)
Lemma empty_cell_blocks_repaired_witness :
  exists chapter' cell' blocks,
    _sanitize_chapter_blocks own_text chapter_loc
      {[chapter_loc := chapter_empty_cells]} !! chapter_loc = Some chapter' /\
    table_cell [(0, 0, 1)] chapter' = Some cell' /\
    get "blocks" cell' = Some (PList blocks) /\
    blocks <> [] /\
    Forall (fun b => get "type" b = Some (PStr "paragraph")) blocks.
Proof.
  apply (empty_cell_blocks_repaired own_text chapter_loc
           {[chapter_loc := chapter_empty_cells]} chapter_empty_cells
           [(0, 0, 1)]
           (PDict [("text", PStr "同比变化"); ("blocks", PNone)])).
  - reflexivity.
  - discriminate.
  - reflexivity.
  - reflexivity.
Defined.

(** C6 on the chapter of [test_table_rows_scalar_values_expanded]. *)
Lemma scalar_rows_expanded_witness :
  exists chapter' holder' blocks' row' cell' block,
    _sanitize_chapter_blocks own_text chapter_loc
      {[chapter_loc := chapter_scalar_rows]} !! chapter_loc = Some chapter' /\
    table_cell [] chapter' = Some holder' /\
    get "blocks" holder' = Some blocks' /\
    row_in_blocks blocks' 0 0 = Some row' /\
    is_dict row' = true /\
    get "cells" row' = Some (PList [cell']) /\
    get "blocks" cell' = Some (PList [block]) /\
    get "type" block = Some (PStr "paragraph") /\
    paragraph_text block = Some (PStr "全国趋势").
Proof.
  apply (scalar_rows_expanded own_text chapter_loc
           {[chapter_loc := chapter_scalar_rows]} chapter_scalar_rows
           [] chapter_scalar_rows
           (PList [PDict [("type", PStr "table");
                          ("rows", PList [PStr "全国趋势"])]])).
  - reflexivity.
  - reflexivity.
  - reflexivity.
  - reflexivity.
  - reflexivity.
Defined.

(** ** The repository's two tests, run on the model *)

Example test_table_cell_empty_blocks_repaired :
  let chapter := sanitize_chapter own_text chapter_empty_cells in
  let cells := [Key "blocks"; Index 0; Key "rows"; Index 0; Key "cells"] in
  py_len (at_path cells chapter) = Some 2
  /\ at_path (cells ++ [Index 0; Key "blocks"]) chapter
     = Some (PList [paragraph (PStr "")])
  /\ at_path (cells ++ [Index 1; Key "blocks"]) chapter
     = Some (PList [paragraph (PStr "同比变化")]).
Proof. repeat split. Qed.

Example test_table_rows_scalar_values_expanded :
  let chapter := sanitize_chapter own_text chapter_scalar_rows in
  let rows := [Key "blocks"; Index 0; Key "rows"] in
  py_len (at_path rows chapter) = Some 1
  /\ py_len (at_path (rows ++ [Index 0; Key "cells"]) chapter) = Some 1
  /\ at_path (rows ++ [Index 0; Key "cells"; Index 0; Key "blocks"; Index 0;
                       Key "inlines"; Index 0; Key "text"]) chapter
     = Some (PStr "全国趋势").
Proof. repeat split. Qed.

(** ** The created list on the sample settings *)

Example created_on_sample_settings :
  match create_llm_repair_functions outside_list sample_world with
  | (Return fs, w) => (map fn_name fs, sink w)
  | (Raise _, w) => ([], sink w)
  end = (["repair_with_report_engine"; "repair_with_media_engine"], []).
Proof. reflexivity. Qed.

Example created_on_no_settings :
  match create_llm_repair_functions outside_list
          (mkWorld unconfigured_settings sample_heap [] [] 0) with
  | (Return fs, w) => (map fn_name fs, sink w)
  | (Raise _, w) => ([], sink w)
  end = ([], [(WARNING, "未配置任何Engine API，图表API修复功能将不可用")]).
Proof. reflexivity. Qed.

(** * The further properties at work on the sample inputs *)

(** X3 on the list created from the sample settings. *)
Lemma closure_reads_settings_at_call_time_witness :
  exists eng,
    configured (settings sample_world) eng = true /\
    forall wb errs (w : World (ext_state outside_list)) e1,
      ext_import outside_list (outside w) = (Return tt, e1) ->
      exists rest,
        new_calls w
          (snd (fn_call (function_of outside_list MediaEngine) wb errs w))
        = Call_import_LLMClient
          :: Call_LLMClient (api_key_of eng (settings w))
               (base_url_of eng (settings w))
               (py_or (model_name_of eng (settings w)) "gpt-4")
          :: rest.
Proof.
  apply (closure_reads_settings_at_call_time outside_list sample_world
           [function_of outside_list ReportEngine;
            function_of outside_list MediaEngine]
           sample_world).
  - reflexivity.
  - right. left. reflexivity.
Defined.

(** A closure called after the settings were cleared creates its client
    with no key, no base URL and the default model. *)
Example cleared_settings_reach_the_client :
  take 2 (new_calls cleared_world
            (snd (repair_with_media_engine outside_list widget_loc errors_loc
                    cleared_world)))
  = [Call_import_LLMClient; Call_LLMClient None None "gpt-4"].
Proof. vm_compute; reflexivity. Qed.

(** X5 on a widget block that cannot be serialized. *)
Lemma unserializable_widget_never_reaches_model_witness :
  List.filter is_invoke
    (new_calls sample_world
       (snd (repair_of outside_unserializable ReportEngine widget_loc
               errors_loc sample_world))) = [].
Proof.
  refine (proj1 (unserializable_widget_never_reaches_model
                   outside_unserializable ReportEngine widget_loc errors_loc
                   sample_world
                   (PyException "TypeError"
                      "Object of type datetime is not JSON serializable") _)).
  reflexivity.
Defined.

(** X9 on the two sample errors: two lines. *)
Lemma errors_section_lines_witness :
  count_nl (errors_text_of outside_list (map PStr sample_errors)) + 1
  = length sample_errors + sum_list (map count_nl sample_errors).
Proof.
  apply (errors_section_lines outside_list sample_errors). discriminate.
Defined.

(** X10 on two records of the Media engine. *)
Lemma failure_record_identifies_engine_witness :
  MediaEngine = MediaEngine /\ "Expecting value" = "Expecting value".
Proof.
  apply (failure_record_identifies_engine MediaEngine MediaEngine
           "Expecting value" "Expecting value").
  reflexivity.
Defined.

(** X11 on the sample call. *)
Lemma model_gets_rendered_prompt_witness :
  fst (build_chart_repair_prompt outside_list widget_loc errors_loc
         sample_world)
  = Return (PROMPT_HEAD +:+ encode 0 sample_widget +:+ PROMPT_MIDDLE
            +:+ String.concat nl (map (fun e => "- " +:+ e) sample_errors)
            +:+ PROMPT_TAIL).
Proof.
  refine (proj2 (proj2 (proj2
    (model_gets_rendered_prompt outside_list ReportEngine widget_loc
       errors_loc sample_world CHART_REPAIR_SYSTEM_PROMPT
       (PROMPT_HEAD +:+ encode 0 sample_widget +:+ PROMPT_MIDDLE
        +:+ String.concat nl (map (fun e => "- " +:+ e) sample_errors)
        +:+ PROMPT_TAIL)
       0.0%float 0.05%float _)))).
  vm_compute. do 3 right. left. reflexivity.
Defined.

(** X12 on the reply that is a JSON list. *)
Lemma parser_gets_reply_verbatim_witness :
  py_truthy (PStr reply_list) = true /\
  exists w1,
    render_and_invoke outside_list ReportEngine widget_loc errors_loc
      sample_world = (Return (PStr reply_list), w1).
Proof.
  apply (parser_gets_reply_verbatim outside_list ReportEngine widget_loc
           errors_loc sample_world (PStr reply_list)).
  vm_compute. do 4 right. left. reflexivity.
Defined.

(** X13 when [ReportEngine.llms] cannot be imported. *)
Lemma repair_stops_at_first_failure_witness :
  new_calls sample_world
    (snd (repair_of outside_no_llms ForumEngine widget_loc errors_loc
            sample_world)) = [Call_import_LLMClient]
  /\ outside (snd (repair_of outside_no_llms ForumEngine widget_loc
                     errors_loc sample_world)) = 0.
Proof.
  refine (proj1 (repair_stops_at_first_failure outside_no_llms ForumEngine
                   widget_loc errors_loc sample_world)
            (PyException "ImportError" "No module named openai") 0 _).
  reflexivity.
Defined.
